(** * memsql-top: the plan-cache poller ([memsql_top/DatabasePoller.py])

    A shallow embedding of [GetPlanCache], [NormalizeDiffPlanCacheEntry],
    [DiffPlanCache] and [DatabasePoller.poll], and the properties of the
    sampling/diff engine proved about them.

    Modelling choices, each following the source:
    - Python integers are [Z]; Python floats are IEEE 754 binary64 values,
      represented by [spec_float] with the library's executable rounding
      operations ([SFdiv], [SFadd], [binary_normalize]) at precision 53.
    - Exceptions are an error monad ([Raise]); [float(n)] can raise
      [OverflowError], a float division raises [ZeroDivisionError] on a zero
      divisor.
    - A [dict] is an association list with the usual update-in-place
      semantics of [d[k] = v], iterated in insertion order. The order is
      kept because [sum] adds floats from left to right; which keys come
      first plays no part in any statement below.
    - [poll] runs in a state/trace/error monad: the state is the poller
      object, the trace records every call made on the event loop, the
      connection and the signal emitter, in program order. *)

From Stdlib Require Import ZArith List String Ascii Bool Lia.
From Stdlib Require Import Floats.SpecFloat.
Import ListNotations.

Local Open Scope string_scope.
Local Open Scope Z_scope.

(** ** Exceptions and the error monad *)

Inductive exn : Type :=
  | QueryError          (* raised by the database driver *)
  | OverflowError       (* int too large to convert to float *)
  | ZeroDivisionError   (* float division by zero *)
  | ValueError          (* could not convert string to float *)
  | AttributeError      (* attribute access on None *)
  | IndexError.         (* list index out of range *)

Inductive result (A : Type) : Type :=
  | Ok (a : A)
  | Raise (e : exn).

Arguments Ok {A} a.
Arguments Raise {A} e.

Definition rbind {A B} (r : result A) (k : A -> result B) : result B :=
  match r with
  | Ok a => k a
  | Raise e => Raise e
  end.

Declare Scope result_scope.
Delimit Scope result_scope with result.
Notation "x <- c ;; k" := (rbind c (fun x => k))
  (at level 61, c at next level, right associativity) : result_scope.

(** Monadic left fold: the body of a [for] loop that may raise. *)
Fixpoint foldM {A B} (f : B -> A -> result B) (l : list A) (acc : B)
  : result B :=
  match l with
  | [] => Ok acc
  | x :: l' => rbind (f acc x) (foldM f l')
  end.

(** ** Python numbers *)

Module Py.

Definition prec : Z := 53.
Definition emax : Z := 1024.

(** A Python [float]: an IEEE 754 binary64 value. *)
Definition float : Type := spec_float.

Definition fdiv : float -> float -> float := SFdiv prec emax.
Definition fadd : float -> float -> float := SFadd prec emax.
Definition fltb : float -> float -> bool := SFltb.

Definition is_zero (f : float) : bool :=
  match f with
  | S754_zero _ => true
  | _ => false
  end.

(** [float(n)] for an integer [n]: the nearest binary64 value, ties to
    even; [OverflowError] when the rounded value is not finite. *)
Definition float_of_int (n : Z) : result float :=
  match binary_normalize prec emax n 0 false with
  | S754_infinity _ => Raise OverflowError
  | f => Ok f
  end.

(** A number as the source handles it: an [int] or a [float]. *)
Inductive number : Type :=
  | PyInt (n : Z)
  | PyFloat (f : float).

(** The conversion every float operation applies to its operands. *)
Definition as_float (x : number) : result float :=
  match x with
  | PyInt n => float_of_int n
  | PyFloat f => Ok f
  end.

(** [a / b] for a float [a]: [b] is converted first, then tested for
    zero, then the IEEE quotient is taken (it may be infinite or NaN). *)
Definition truediv (a : float) (b : number) : result float :=
  (b' <- as_float b ;;
   if is_zero b' then Raise ZeroDivisionError else Ok (fdiv a b'))%result.

(** [a + b] for a float [b]. *)
Definition add (a : number) (b : float) : result number :=
  (a' <- as_float a ;; Ok (PyFloat (fadd a' b)))%result.

(** [sum(xs)] for a sequence of floats: a left fold of [+] from the
    integer [0]. *)
Definition sum (xs : list float) : result number :=
  foldM add xs (PyInt 0).

(** The literal [1000.0]. *)
Definition f1000 : float :=
  Eval vm_compute in binary_normalize prec emax 1000 0 false.

Definition pzero : float := S754_zero false.

(** [0 < x] for a number [x]. *)
Definition is_positive (x : number) : bool :=
  match x with
  | PyInt n => 0 <? n
  | PyFloat f => fltb pzero f
  end.

(** The float is not NaN and its sign is minus: a negative number, a
    negative infinity or a negative zero. *)
Definition minus_sign (f : float) : bool :=
  match f with
  | S754_zero s | S754_infinity s | S754_finite s _ _ => s
  | S754_nan => false
  end.

(** A positive integer or a positive finite float. *)
Definition finite_positive (x : number) : bool :=
  match x with
  | PyInt n => 0 <? n
  | PyFloat (S754_finite false _ _) => true
  | PyFloat _ => false
  end.

End Py.

Import Py.

(** ** Python dictionaries with string keys *)

Definition dict (V : Type) : Type := list (string * V).

Fixpoint dict_get {V} (k : string) (d : dict V) : option V :=
  match d with
  | [] => None
  | (k', v) :: d' => if String.eqb k k' then Some v else dict_get k d'
  end.

(** [k in d] *)
Definition dict_mem {V} (k : string) (d : dict V) : bool :=
  match dict_get k d with
  | Some _ => true
  | None => false
  end.

(** [d[k] = v]: an existing key keeps its position, a new key goes last. *)
Fixpoint dict_set {V} (k : string) (v : V) (d : dict V) : dict V :=
  match d with
  | [] => [(k, v)]
  | (k', v') :: d' =>
      if String.eqb k k' then (k, v) :: d' else (k', v') :: dict_set k v d'
  end.

Definition items {V} (d : dict V) : list (string * V) := d.
Definition values {V} (d : dict V) : list V := map snd d.

(** A well-formed dictionary holds every key once. *)
Fixpoint dict_wf {V} (d : dict V) : bool :=
  match d with
  | [] => true
  | (k, _) :: d' => negb (dict_mem k d') && dict_wf d'
  end.

(** ** Rows and records *)

(** A row of [distributed_plancache_summary] as the query selects it. *)
Record PlanRow : Type := {
  database_name : string;
  query_text : string;
  plan_hash : string;
  commits : Z;
  rowcount : Z;
  execution_time : Z;
  queued_time : Z;
  cpu_time : Z;
  memory_use : Z
}.

(** The row of [show status like ...]. *)
Record StatusRow : Type := {
  Variable_name : string;
  Value : string
}.

(** The [AttrDict] built by [NormalizeDiffPlanCacheEntry]; the keys
    ['Executions/sec'], ['RowCount/sec'], ['ExecutionTime/query'],
    ['Memory/query'] and ['QueuedTime/query'] are spelled with [_]. *)
Record DiffEntry : Type := {
  Database : string;
  Query : string;
  Executions_sec : float;
  RowCount_sec : float;
  CpuUtil : float;
  ExecutionTime_query : float;
  Memory_query : float;
  QueuedTime_query : float
}.

(** The database connection: what [conn.query] and [conn.get] answer
    during one poll cycle. [conn.get] answers [None] when no row matches. *)
Record Conn : Type := {
  conn_query : string -> result (list PlanRow);
  conn_get : string -> result (option StatusRow)
}.

(** ** The snapshot fetcher *)

Definition GET_PLANCACHE_QUERY : string :=
  "select database_name, query_text, plan_hash, " ++
  "IFNULL(commits, 0) as commits, " ++
  "IFNULL(rowcount, 0) as rowcount, " ++
  "IFNULL(execution_time, 0) as execution_time, " ++
  "IFNULL(queued_time, 0) as queued_time, " ++
  "IFNULL(cpu_time, 0) as cpu_time, " ++
  "IFNULL(memory_use, 0) as memory_use " ++
  "from distributed_plancache_summary " ++
  "where plan_hash is not null".

(** The dictionary comprehension [{r.plan_hash: r for r in rows if ...}]. *)
Definition plancache_of_rows (rows : list PlanRow) : dict PlanRow :=
  fold_left
    (fun d r =>
       if String.eqb (query_text r) GET_PLANCACHE_QUERY then d
       else dict_set (plan_hash r) r d)
    rows [].

(** ** The diff/normalize engine *)

(** Modelled from the spec: [CheckHasDataForAllColumns] lives in the module
    [columns], which is not part of the sources at hand. The spec takes the
    record built by the normalisation as the interval metric record itself,
    so the check hands its argument back unchanged. *)
Definition CheckHasDataForAllColumns (e : DiffEntry) : DiffEntry := e.

Definition NormalizeDiffPlanCacheEntry (interval : number)
    (database_name query_text : string)
    (commits rowcount cpu_time execution_time memory_use queued_time : Z)
  : result DiffEntry :=
  (c1 <- float_of_int commits ;;
   executions_sec <- truediv c1 interval ;;
   r1 <- float_of_int rowcount ;;
   rowcount_sec <- truediv r1 interval ;;
   u1 <- float_of_int cpu_time ;;
   u2 <- truediv u1 (PyFloat f1000) ;;
   cpu_util <- truediv u2 interval ;;
   e1 <- float_of_int execution_time ;;
   c2 <- float_of_int commits ;;
   execution_time_query <- truediv e1 (PyFloat c2) ;;
   m1 <- float_of_int memory_use ;;
   c3 <- float_of_int commits ;;
   memory_query <- truediv m1 (PyFloat c3) ;;
   q1 <- float_of_int queued_time ;;
   c4 <- float_of_int commits ;;
   queued_time_query <- truediv q1 (PyFloat c4) ;;
   Ok (CheckHasDataForAllColumns
         {| Database := database_name;
            Query := query_text;
            Executions_sec := executions_sec;
            RowCount_sec := rowcount_sec;
            CpuUtil := cpu_util;
            ExecutionTime_query := execution_time_query;
            Memory_query := memory_query;
            QueuedTime_query := queued_time_query |}))%result.

(** One iteration of the loop of [DiffPlanCache]. *)
Definition DiffPlanCache_body (old_plancache : dict PlanRow)
    (interval : number) (diff_plancache : dict DiffEntry)
    (item : string * PlanRow) : result (dict DiffEntry) :=
  let '(key, n_ent) := item in
  match dict_get key old_plancache with
  | None =>
      if 0 <? commits n_ent then
        (e <- NormalizeDiffPlanCacheEntry interval
                (database_name n_ent) (query_text n_ent)
                (commits n_ent) (rowcount n_ent) (cpu_time n_ent)
                (execution_time n_ent) (memory_use n_ent)
                (queued_time n_ent) ;;
         Ok (dict_set key e diff_plancache))%result
      else Ok diff_plancache
  | Some o_ent =>
      if 0 <? commits n_ent - commits o_ent then
        (e <- NormalizeDiffPlanCacheEntry interval
                (database_name n_ent) (query_text n_ent)
                (commits n_ent - commits o_ent)
                (rowcount n_ent - rowcount o_ent)
                (cpu_time n_ent - cpu_time o_ent)
                (execution_time n_ent - execution_time o_ent)
                (memory_use n_ent - memory_use o_ent)
                (queued_time n_ent - queued_time o_ent) ;;
         Ok (dict_set key e diff_plancache))%result
      else Ok diff_plancache
  end.

Definition DiffPlanCache (new_plancache old_plancache : dict PlanRow)
    (interval : number) : result (dict DiffEntry) :=
  foldM (DiffPlanCache_body old_plancache interval) (items new_plancache) [].

(** ** Poll orchestration *)

(** The signals of the widget ([DatabasePoller.signals]). *)
Inductive signal : Type :=
  | plancache_changed
  | cpu_util_changed
  | mem_usage_changed.

Definition signals : list signal :=
  [plancache_changed; cpu_util_changed; mem_usage_changed].

Inductive payload : Type :=
  | PlanCache (d : dict DiffEntry)
  | Num (x : number).

(** What a poll cycle does to the outside, in program order. The event
    loop and the listeners of the signals belong to the surrounding tool:
    their calls are recorded, they return, and the listeners leave the
    value they are handed as it is. *)
Inductive event : Type :=
  | set_alarm_in (sec : number)          (* loop.set_alarm_in(sec, self.poll) *)
  | query (sql : string)                 (* conn.query(sql) *)
  | get (sql : string)                   (* conn.get(sql) *)
  | emit (name : signal) (arg : payload). (* self._emit(name, arg) *)

(** State, trace and exceptions: a computation takes the object state and
    gives a result or an exception, the state it leaves and the calls it
    made. What was done before an exception stays done. *)
Definition M (S A : Type) : Type := S -> result A * S * list event.

Definition ret {S A} (a : A) : M S A := fun s => (Ok a, s, []).

Definition bind {S A B} (c : M S A) (k : A -> M S B) : M S B :=
  fun s =>
    match c s with
    | (Ok a, s', t) =>
        let '(r, s'', t') := k a s' in (r, s'', (t ++ t')%list)
    | (Raise e, s', t) => (Raise e, s', t)
    end.

Definition lift {S A} (r : result A) : M S A := fun s => (r, s, []).
Definition tell {S} (ev : event) : M S unit := fun s => (Ok tt, s, [ev]).
Definition read {S} : M S S := fun s => (Ok s, s, []).
Definition write {S} (s' : S) : M S unit := fun _ => (Ok tt, s', []).

Declare Scope M_scope.
Delimit Scope M_scope with M.
Notation "x <- c ;; k" := (bind c (fun x => k))
  (at level 61, c at next level, right associativity) : M_scope.
Notation "c ;;; k" := (bind c (fun _ => k))
  (at level 61, right associativity) : M_scope.

Definition outcome {S A} (x : result A * S * list event) : result A :=
  fst (fst x).
Definition final {S A} (x : result A * S * list event) : S := snd (fst x).
Definition trace {S A} (x : result A * S * list event) : list event := snd x.

(** [conn.query(sql)] and [conn.get(sql)] as calls. *)
Definition db_query {S} (conn : Conn) (sql : string) : M S (list PlanRow) :=
  (tell (query sql) ;;; lift (conn_query conn sql))%M.

Definition db_get {S} (conn : Conn) (sql : string)
  : M S (option StatusRow) :=
  (tell (get sql) ;;; lift (conn_get conn sql))%M.

(** [GetPlanCache(conn)]: the query is issued, then the rows are filtered
    into a dictionary. *)
Definition GetPlanCache {S} (conn : Conn) : M S (dict PlanRow) :=
  (rows <- db_query conn GET_PLANCACHE_QUERY ;;
   ret (plancache_of_rows rows))%M.

(** [s.split(" ")] *)
Fixpoint split_space (s : string) : list string :=
  match s with
  | EmptyString => [EmptyString]
  | String c s' =>
      if Ascii.eqb c " "%char then EmptyString :: split_space s'
      else
        match split_space s' with
        | h :: t => String c h :: t
        | [] => [String c EmptyString]
        end
  end.

(** [l[0]] *)
Definition index0 {A} (l : list A) : result A :=
  match l with
  | x :: _ => Ok x
  | [] => Raise IndexError
  end.

(** [tsm_row.Value], where [tsm_row] may be [None]. *)
Definition attr_Value (tsm_row : option StatusRow) : result string :=
  match tsm_row with
  | Some r => Ok (Value r)
  | None => Raise AttributeError
  end.

(** The fields of the poller object that [poll] reads and writes; the
    connection is passed along with each cycle. *)
Record DatabasePoller : Type := {
  update_interval : number;
  plancache : dict PlanRow
}.

Definition set_plancache (p : dict PlanRow) (self : DatabasePoller)
  : DatabasePoller :=
  {| update_interval := update_interval self; plancache := p |}.

Definition TOTAL_SERVER_MEMORY_QUERY : string :=
  "show status like 'Total_server_memory'".

Section Poll.

(** The builtin [float] applied to a string: the interpreter's parser,
    which raises [ValueError] on what it does not accept. *)
Variable float_of_str : string -> result float.

(** [DatabasePoller.__init__] *)
Definition init (conn : Conn) (update_interval : number)
  : M unit DatabasePoller :=
  (p <- GetPlanCache conn ;;
   ret {| update_interval := update_interval; plancache := p |})%M.

(** [DatabasePoller.poll] *)
Definition poll (conn : Conn) : M DatabasePoller unit :=
  (self <- read ;;
   tell (set_alarm_in (update_interval self)) ;;;
   new_plancache <- GetPlanCache conn ;;
   diff_plancache <- lift (DiffPlanCache new_plancache (plancache self)
                             (update_interval self)) ;;
   tell (emit plancache_changed (PlanCache diff_plancache)) ;;;
   write (set_plancache new_plancache self) ;;;
   sum_cpu_util <- lift (Py.sum (map CpuUtil (values diff_plancache))) ;;
   tell (emit cpu_util_changed (Num sum_cpu_util)) ;;;
   tsm_row <- db_get conn TOTAL_SERVER_MEMORY_QUERY ;;
   value <- lift (attr_Value tsm_row) ;;
   token <- lift (index0 (split_space value)) ;;
   mem <- lift (float_of_str token) ;;
   tell (emit mem_usage_changed (Num (PyFloat mem))))%M.

End Poll.

(** ** The words of the specification *)

(** The delta of one counter of a new entry: new minus old when the key is
    known in the old snapshot, the raw new counter otherwise. *)
Definition delta (old_plancache : dict PlanRow) (counter : PlanRow -> Z)
    (key : string) (n_ent : PlanRow) : Z :=
  match dict_get key old_plancache with
  | Some o_ent => counter n_ent - counter o_ent
  | None => counter n_ent
  end.

(** The record the engine builds for a new entry from its deltas. *)
Definition normalized (old_plancache : dict PlanRow) (interval : number)
    (key : string) (n_ent : PlanRow) : result DiffEntry :=
  NormalizeDiffPlanCacheEntry interval
    (database_name n_ent) (query_text n_ent)
    (delta old_plancache commits key n_ent)
    (delta old_plancache rowcount key n_ent)
    (delta old_plancache cpu_time key n_ent)
    (delta old_plancache execution_time key n_ent)
    (delta old_plancache memory_use key n_ent)
    (delta old_plancache queued_time key n_ent).

(** Every counter of the row is below [2 ^ 1022] in absolute value, so
    that every difference of two counters converts to a finite float. *)
Definition row_bounded (r : PlanRow) : bool :=
  forallb (fun c => Z.abs c <? 2 ^ 1022)
    [commits r; rowcount r; execution_time r; queued_time r; cpu_time r;
     memory_use r].

Definition snapshot_bounded (d : dict PlanRow) : bool :=
  forallb row_bounded (values d).

(** The interval converts to a float that is not zero. *)
Definition interval_usable (interval : number) : bool :=
  match as_float interval with
  | Ok f => negb (is_zero f)
  | Raise _ => false
  end.

(** The plan-cache step of a cycle (fetch, then diff) and the memory step
    (status lookup, then parse), each on its own. *)
Definition plancache_step (conn : Conn) (self : DatabasePoller)
  : result (dict DiffEntry) :=
  (rows <- conn_query conn GET_PLANCACHE_QUERY ;;
   DiffPlanCache (plancache_of_rows rows) (plancache self)
     (update_interval self))%result.

Definition memory_step (float_of_str : string -> result float) (conn : Conn)
  : result float :=
  (tsm_row <- conn_get conn TOTAL_SERVER_MEMORY_QUERY ;;
   value <- attr_Value tsm_row ;;
   token <- index0 (split_space value) ;;
   float_of_str token)%result.

(** The total CPU utilisation of a diff result: the sum of the [CpuUtil]
    fields in iteration order, the integer [0] for an empty result. *)
Definition TotalCpuUtilization (diff : dict DiffEntry) : number :=
  match values diff with
  | [] => PyInt 0
  | e :: es =>
      PyFloat (fold_left (fun acc e' => fadd acc (CpuUtil e')) es
                 (fadd pzero (CpuUtil e)))
  end.

(** The prefix of the trace up to the memory lookup. *)
Definition trace_to_lookup (self : DatabasePoller) (diff : dict DiffEntry)
  : list event :=
  [set_alarm_in (update_interval self);
   query GET_PLANCACHE_QUERY;
   emit plancache_changed (PlanCache diff);
   emit cpu_util_changed (Num (TotalCpuUtilization diff));
   get TOTAL_SERVER_MEMORY_QUERY].

(** The two steps of a cycle do not block each other: when the memory
    step fails and the plan-cache step succeeds, the plan-cache signals are
    emitted; when the plan-cache step fails and the memory step succeeds,
    the memory signal is emitted. *)
Definition steps_independent (float_of_str : string -> result float)
    (conn : Conn) (self : DatabasePoller) : Prop :=
  let t := trace (poll float_of_str conn self) in
  (forall x diff,
     memory_step float_of_str conn = Raise x ->
     plancache_step conn self = Ok diff ->
     In (emit plancache_changed (PlanCache diff)) t /\
     In (emit cpu_util_changed (Num (TotalCpuUtilization diff))) t) /\
  (forall x mem,
     plancache_step conn self = Raise x ->
     memory_step float_of_str conn = Ok mem ->
     In (emit mem_usage_changed (Num (PyFloat mem))) t).

(** Events that are work of the cycle: fetches and emissions. *)
Definition is_work (ev : event) : bool :=
  match ev with
  | set_alarm_in _ => false
  | _ => true
  end.

Definition is_emit (ev : event) : bool :=
  match ev with
  | emit _ _ => true
  | _ => false
  end.

Definition is_emit_of (name : signal) (ev : event) : bool :=
  match ev, name with
  | emit plancache_changed _, plancache_changed => true
  | emit cpu_util_changed _, cpu_util_changed => true
  | emit mem_usage_changed _, mem_usage_changed => true
  | _, _ => false
  end.

(** The next tick is scheduled only once the work of the cycle is over:
    nothing but scheduling follows a [set_alarm_in] in the trace. *)
Definition scheduled_after_work (t : list event) : Prop :=
  forall pre sec post,
    t = (pre ++ set_alarm_in sec :: post)%list -> existsb is_work post = false.

(** ** Words for the further properties *)

(** The row is kept by the fetcher under the key [k]: it carries that plan
    hash and is not the monitoring query itself. *)
Definition kept_as (k : string) (r : PlanRow) : bool :=
  String.eqb (plan_hash r) k &&
  negb (String.eqb (query_text r) GET_PLANCACHE_QUERY).

(** The item of the new snapshot has a positive commit delta. *)
Definition included (old_plancache : dict PlanRow) (item : string * PlanRow)
  : bool :=
  0 <? delta old_plancache commits (fst item) (snd item).

Definition is_nan (f : float) : bool :=
  match f with
  | S754_nan => true
  | _ => false
  end.

(** The floats of a record, in the order of its fields. *)
Definition metrics (e : DiffEntry) : list float :=
  [Executions_sec e; RowCount_sec e; CpuUtil e; ExecutionTime_query e;
   Memory_query e; QueuedTime_query e].

Fixpoint has_space (s : string) : bool :=
  match s with
  | EmptyString => false
  | String c s' => Ascii.eqb c " "%char || has_space s'
  end.

(** Calls on the database connection. *)
Definition is_db_call (ev : event) : bool :=
  match ev with
  | query _ | get _ => true
  | _ => false
  end.

(** The interval converts to a float that is zero. *)
Definition interval_zero (interval : number) : bool :=
  match as_float interval with
  | Ok f => is_zero f
  | Raise _ => false
  end.

(** ** Concrete snapshots and connections *)

Module Ex.

Definition row (k : string) (c r e q u m : Z) : PlanRow :=
  {| database_name := "db"; query_text := "select * from t";
     plan_hash := k; commits := c; rowcount := r; execution_time := e;
     queued_time := q; cpu_time := u; memory_use := m |}.

(** [float] on a string of ASCII digits, where it is the nearest float
    of the number written; any other string is refused here. *)
Fixpoint int_of_digits (acc : Z) (s : string) : option Z :=
  match s with
  | EmptyString => Some acc
  | String c s' =>
      let n := Z.of_nat (nat_of_ascii c) in
      if (48 <=? n) && (n <=? 57)
      then int_of_digits (10 * acc + (n - 48)) s'
      else None
  end.

Definition float_of_digits (s : string) : result float :=
  match s with
  | EmptyString => Raise ValueError
  | _ =>
      match int_of_digits 0 s with
      | Some n => Ok (binary_normalize prec emax n 0 false)
      | None => Raise ValueError
      end
  end.

(** Plan A advanced and lost queued time, B is unchanged, C was reset,
    D was evicted, E is new with commits, F is new without. *)
Definition old_plancache : dict PlanRow :=
  [("A", row "A" 10 100 4000 900 0 64);
   ("B", row "B" 7 70 10 10 10 10);
   ("C", row "C" 20 200 20 20 20 20);
   ("D", row "D" 10 100 10 10 10 10)].

Definition new_plancache : dict PlanRow :=
  [("A", row "A" 15 150 9000 200 500 128);
   ("B", row "B" 7 70 10 10 10 10);
   ("C", row "C" 5 50 5 5 5 5);
   ("E", row "E" 4 8 1000 12 2000 4096);
   ("F", row "F" 0 0 0 0 0 0)].

Definition rows : list PlanRow := values new_plancache.

Definition poller : DatabasePoller :=
  {| update_interval := PyInt 5; plancache := old_plancache |}.

Definition status : StatusRow :=
  {| Variable_name := "Total_server_memory"; Value := "2048 MB" |}.

(** The database answers both requests. *)
Definition conn_up : Conn :=
  {| conn_query := fun _ => Ok rows;
     conn_get := fun _ => Ok (Some status) |}.

(** The plan-cache query fails, the status lookup would answer. *)
Definition conn_query_down : Conn :=
  {| conn_query := fun _ => Raise QueryError;
     conn_get := fun _ => Ok (Some status) |}.

(** The plan-cache query answers, the status value does not parse. *)
Definition conn_status_bad : Conn :=
  {| conn_query := fun _ => Ok rows;
     conn_get := fun _ =>
       Ok (Some {| Variable_name := "Total_server_memory";
                   Value := "n/a" |}) |}.

Definition diff_plancache : dict DiffEntry :=
  Eval vm_compute in
    match DiffPlanCache new_plancache old_plancache (PyInt 5) with
    | Ok d => d
    | Raise _ => []
    end.

(** The record of plan A in the result: 1.0 executions and 10.0 rows per
    second, 0.1 of a core, 1000.0 microseconds and 12.8 bytes per query,
    and -140.0 microseconds queued per query. *)
Definition entry_A : DiffEntry :=
  {| Database := "db";
     Query := "select * from t";
     Executions_sec := S754_finite false 4503599627370496 (-52);
     RowCount_sec := S754_finite false 5629499534213120 (-49);
     CpuUtil := S754_finite false 7205759403792794 (-56);
     ExecutionTime_query := S754_finite false 8796093022208000 (-43);
     Memory_query := S754_finite false 7205759403792794 (-49);
     QueuedTime_query := S754_finite true 4925812092436480 (-45) |}.

(** Plan G was partly reset: two more commits, every other counter lower
    than before. *)
Definition old_G : PlanRow := row "G" 3 30 300 30 3000 300.
Definition new_G : PlanRow := row "G" 5 10 100 10 1000 100.

Definition diff_G : dict DiffEntry :=
  Eval vm_compute in
    match DiffPlanCache [("G", new_G)] [("G", old_G)] (PyInt 5) with
    | Ok d => d
    | Raise _ => []
    end.

(** An answer of the database with the monitoring query itself in it and
    plan A reported twice. *)
Definition self_row : PlanRow :=
  {| database_name := "db"; query_text := GET_PLANCACHE_QUERY;
     plan_hash := "S"; commits := 9; rowcount := 9; execution_time := 9;
     queued_time := 9; cpu_time := 9; memory_use := 9 |}.

Definition answer : list PlanRow :=
  [row "A" 10 100 4000 900 0 64; self_row; row "B" 7 70 10 10 10 10;
   row "A" 15 150 9000 200 500 128].

(** The old snapshot without the evicted plan D. *)
Definition old_without_D : dict PlanRow :=
  [("A", row "A" 10 100 4000 900 0 64);
   ("B", row "B" 7 70 10 10 10 10);
   ("C", row "C" 20 200 20 20 20 20)].

(** A later answer of the database: plan A advanced again, E is gone. *)
Definition later_rows : list PlanRow :=
  [row "A" 25 250 9500 300 900 256; row "B" 7 70 10 10 10 10].

Definition conn_later : Conn :=
  {| conn_query := fun _ => Ok later_rows;
     conn_get := fun _ => Ok (Some status) |}.

Definition later_diff : dict DiffEntry :=
  Eval vm_compute in
    match DiffPlanCache (plancache_of_rows later_rows) new_plancache
            (PyInt 5) with
    | Ok d => d
    | Raise _ => []
    end.

Definition later_diff_from_old : dict DiffEntry :=
  Eval vm_compute in
    match DiffPlanCache (plancache_of_rows later_rows) old_plancache
            (PyInt 5) with
    | Ok d => d
    | Raise _ => []
    end.

End Ex.

(** * Properties *)

(** ** Facts about [float(n)] *)

Section Binary64.

Lemma digits2_pos_size (q : positive) : digits2_pos q = Pos.size q.
Proof. induction q; simpl; congruence. Qed.

Lemma Zdigits2_log2 (q : positive) :
  Zdigits2 (Zpos q) = Z.log2 (Zpos q) + 1.
Proof.
  simpl. rewrite digits2_pos_size. destruct q; simpl; lia.
Qed.

Lemma shr_1_div2 (r : shr_record) :
  0 <= shr_m r -> shr_m (shr_1 r) = Z.div2 (shr_m r).
Proof.
  destruct r as [[|[p|p|]|p] b s]; simpl; intros H; try reflexivity; lia.
Qed.

Lemma iter_shr_1_shiftr (n : positive) :
  forall r, 0 <= shr_m r ->
    shr_m (iter_pos shr_1 n r) = Z.shiftr (shr_m r) (Zpos n).
Proof.
  induction n as [n IH|n IH|]; intros r Hr; simpl.
  - rewrite IH, IH, shr_1_div2, Z.div2_spec by
      (rewrite ?IH, ?shr_1_div2, ?Z.div2_spec, ?Z.shiftr_nonneg
         by (rewrite ?shr_1_div2, ?Z.div2_spec, ?Z.shiftr_nonneg; assumption);
       assumption).
    rewrite !Z.shiftr_shiftr by lia. f_equal. lia.
  - rewrite IH, IH by (rewrite ?IH, ?Z.shiftr_nonneg; assumption).
    rewrite Z.shiftr_shiftr by lia. f_equal. lia.
  - rewrite shr_1_div2, Z.div2_spec by assumption. reflexivity.
Qed.

Lemma shr_record_of_loc_m (m : Z) (l : location) :
  shr_m (shr_record_of_loc m l) = m.
Proof. destruct l as [|[]]; reflexivity. Qed.

(** Rounding a positive mantissa whose exponent is far from the
    subnormal range: the mantissa is cut to 53 bits. *)
Lemma shr_fexp_shiftr (q : positive) (e : Z) (l : location) :
  -52 <= e ->
  shr_m (fst (shr_fexp prec emax (Zpos q) e l)) =
    Z.shiftr (Zpos q) (Z.max 0 (Z.log2 (Zpos q) - 52)) /\
  snd (shr_fexp prec emax (Zpos q) e l) =
    e + Z.max 0 (Z.log2 (Zpos q) - 52).
Proof.
  intros He. unfold shr_fexp, shr.
  rewrite Zdigits2_log2. unfold fexp, emin, prec, emax.
  pose proof (Z.log2_nonneg (Zpos q)) as Hl.
  replace (Z.max (Z.log2 (Zpos q) + 1 + e - 53) (3 - 1024 - 53) - e)
    with (Z.log2 (Zpos q) - 52) by lia.
  destruct (Z.log2 (Zpos q) - 52) as [|k|k] eqn:Hk; cbn [fst snd].
  - rewrite shr_record_of_loc_m. split; [reflexivity | lia].
  - rewrite iter_shr_1_shiftr by (rewrite shr_record_of_loc_m; lia).
    rewrite shr_record_of_loc_m, Z.max_r by lia. split; reflexivity.
  - rewrite shr_record_of_loc_m, Z.max_l by lia. split; [reflexivity | lia].
Qed.

Lemma shiftr_pos (a n : Z) : 0 < a -> 0 <= n <= Z.log2 a -> 0 < Z.shiftr a n.
Proof.
  intros Ha Hn.
  assert (0 <= Z.shiftr a n) by (apply Z.shiftr_nonneg; lia).
  assert (Z.shiftr a n <> 0); [| lia].
  rewrite Z.shiftr_eq_0_iff. lia.
Qed.

Lemma round_nearest_even_cases (m : Z) (l : location) :
  round_nearest_even m l = m \/ round_nearest_even m l = m + 1.
Proof.
  destruct l as [|[]]; simpl; auto. destruct (Z.even m); auto.
Qed.

(** The two roundings of [binary_round_aux] on a positive mantissa keep it
    positive and raise the exponent by what was cut, plus one at most. *)
Lemma binary_round_aux_pos (sx : bool) (q : positive) (e : Z) :
  -52 <= e ->
  exists m e',
    binary_round_aux prec emax sx (Zpos q) e loc_Exact =
      (if e' <=? 971 then S754_finite sx m e' else S754_infinity sx) /\
    e' <= e + Z.max 0 (Z.log2 (Zpos q) - 52) + 1.
Proof.
  intros He. unfold binary_round_aux.
  destruct (shr_fexp_shiftr q e loc_Exact He) as [Hm He'].
  destruct (shr_fexp prec emax (Zpos q) e loc_Exact) as [mrs' e'] eqn:E1.
  cbn [fst snd] in Hm, He'.
  pose proof (Z.log2_nonneg (Zpos q)) as Hl.
  set (n := Z.max 0 (Z.log2 (Zpos q) - 52)) in *.
  assert (Hpos : 0 < shr_m mrs')
    by (rewrite Hm; apply shiftr_pos; lia).
  assert (Hlog : Z.log2 (shr_m mrs') <= 52).
  { rewrite Hm, Z.log2_shiftr by lia. lia. }
  set (m2 := round_nearest_even (shr_m mrs') (loc_of_shr_record mrs')).
  assert (H2 : 0 < m2 /\ Z.log2 m2 <= 53).
  { destruct (round_nearest_even_cases (shr_m mrs') (loc_of_shr_record mrs'))
      as [R|R]; fold m2 in R; rewrite R; split; try lia.
    pose proof (Z.log2_succ_le (shr_m mrs')). unfold Z.succ in *. lia. }
  destruct H2 as [Hm2 Hl2].
  destruct m2 as [|q2|q2] eqn:Eq2; try lia.
  assert (He2 : -52 <= e') by lia.
  destruct (shr_fexp_shiftr q2 e' loc_Exact He2) as [Hm3 He3].
  destruct (shr_fexp prec emax (Zpos q2) e' loc_Exact) as [mrs'' e''] eqn:E2.
  cbn [fst snd] in Hm3, He3.
  pose proof (Z.log2_nonneg (Zpos q2)) as Hl3.
  assert (Hpos3 : 0 < shr_m mrs'')
    by (rewrite Hm3; apply shiftr_pos; lia).
  destruct (shr_m mrs'') as [|m3|m3]; try lia.
  exists m3, e''. split.
  - unfold emax, prec. reflexivity.
  - lia.
Qed.

Lemma iter_xO_pow2 (p k : positive) :
  Zpos (Pos.iter xO p k) = Zpos p * 2 ^ Zpos k.
Proof.
  induction k as [|k IH] using Pos.peano_ind.
  - simpl. lia.
  - rewrite Pos.iter_succ, Pos2Z.inj_xO, IH, Pos2Z.inj_succ, Z.pow_succ_r by lia.
    lia.
Qed.

(** [float(n)] for a positive or negative [n] is a finite number of the
    same sign or an infinity, and finite when [n] is short enough. *)
Lemma binary_round_int (sx : bool) (p : positive) :
  exists m e,
    binary_round prec emax sx p 0 =
      (if e <=? 971 then S754_finite sx m e else S754_infinity sx) /\
    e <= Z.log2 (Zpos p) - 51.
Proof.
  unfold binary_round, shl_align.
  pose proof (Zdigits2_log2 p) as Hd.
  change (Zdigits2 (Zpos p)) with (Zpos (digits2_pos p)) in Hd. rewrite Hd.
  pose proof (Z.log2_nonneg (Zpos p)) as Hl.
  unfold fexp, emin, prec, emax.
  replace (Z.max (Z.log2 (Zpos p) + 1 + 0 - 53) (3 - 1024 - 53) - 0)
    with (Z.log2 (Zpos p) - 52) by lia.
  replace (Z.max (Z.log2 (Zpos p) + 1 + 0 - 53) (3 - 1024 - 53))
    with (Z.log2 (Zpos p) - 52) by lia.
  destruct (Z.log2 (Zpos p) - 52) as [|k|k] eqn:Hk.
  - destruct (binary_round_aux_pos sx p 0) as (m & e & H & Hb); [lia|].
    exists m, e. split; [exact H | lia].
  - destruct (binary_round_aux_pos sx p 0) as (m & e & H & Hb); [lia|].
    exists m, e. split; [exact H | lia].
  - destruct (binary_round_aux_pos sx (Pos.iter xO p k) (Z.neg k))
      as (m & e & H & Hb); [lia|].
    exists m, e. split; [exact H |].
    rewrite iter_xO_pow2, Z.log2_mul_pow2 in Hb by lia. lia.
Qed.

End Binary64.

(** ** [float(n)]: sign, zero and overflow *)

Lemma float_of_int_zero : float_of_int 0 = Ok pzero.
Proof. reflexivity. Qed.

Lemma float_of_int_sign (n : Z) (f : float) :
  n <> 0 -> float_of_int n = Ok f ->
  exists m e, f = S754_finite (n <? 0) m e.
Proof.
  intros Hn. unfold float_of_int, binary_normalize.
  destruct n as [|p|p]; [congruence | |].
  - destruct (binary_round_int false p) as (m & e & -> & _).
    destruct (e <=? 971); intros H; inversion H. now exists m, e.
  - destruct (binary_round_int true p) as (m & e & -> & _).
    destruct (e <=? 971); intros H; inversion H. now exists m, e.
Qed.

Lemma float_of_int_nonzero (n : Z) (f : float) :
  n <> 0 -> float_of_int n = Ok f -> is_zero f = false.
Proof.
  intros Hn H. destruct (float_of_int_sign n f Hn H) as (m & e & ->).
  reflexivity.
Qed.

Lemma float_of_int_raises (n : Z) (x : exn) :
  float_of_int n = Raise x -> x = OverflowError.
Proof.
  unfold float_of_int.
  destruct (binary_normalize prec emax n 0 false); congruence.
Qed.

Lemma float_of_int_finite (n : Z) :
  Z.abs n < 2 ^ 1023 -> exists f, float_of_int n = Ok f.
Proof.
  intros Hn. unfold float_of_int, binary_normalize.
  destruct n as [|p|p].
  - eexists; reflexivity.
  - destruct (binary_round_int false p) as (m & e & -> & He).
    assert (Z.log2 (Zpos p) < 1023) by (apply Z.log2_lt_pow2; lia).
    replace (e <=? 971) with true by (symmetry; apply Z.leb_le; lia).
    eexists; reflexivity.
  - destruct (binary_round_int true p) as (m & e & -> & He).
    assert (Z.log2 (Zpos p) < 1023) by (apply Z.log2_lt_pow2; lia).
    replace (e <=? 971) with true by (symmetry; apply Z.leb_le; lia).
    eexists; reflexivity.
Qed.

Lemma is_positive_nonzero (interval : number) (iv : float) :
  is_positive interval = true -> as_float interval = Ok iv ->
  is_zero iv = false.
Proof.
  destruct interval as [n|f]; simpl; intros Hp H.
  - apply (float_of_int_nonzero n); [apply Z.ltb_lt in Hp; lia | exact H].
  - inversion H; subst. destruct iv; try reflexivity. discriminate.
Qed.

Lemma as_float_raises (interval : number) (x : exn) :
  as_float interval = Raise x -> x = OverflowError.
Proof.
  destruct interval; simpl; [apply float_of_int_raises | discriminate].
Qed.

(** ** The sign of a quotient *)

Lemma shr_fexp_nonneg (m e : Z) (l : location) :
  0 <= m -> 0 <= shr_m (fst (shr_fexp prec emax m e l)).
Proof.
  intros Hm. unfold shr_fexp, shr.
  destruct (fexp prec emax (Zdigits2 m + e) - e) as [|k|k]; cbn [fst];
    rewrite ?iter_shr_1_shiftr, ?shr_record_of_loc_m, ?Z.shiftr_nonneg;
    rewrite ?shr_record_of_loc_m; exact Hm.
Qed.

(** Rounding a non-negative mantissa gives a zero, a finite number or an
    infinity of the sign asked for. *)
Lemma binary_round_aux_sign (sx : bool) (m e : Z) (l : location) :
  0 <= m ->
  binary_round_aux prec emax sx m e l <> S754_nan /\
  minus_sign (binary_round_aux prec emax sx m e l) = sx.
Proof.
  intros Hm. unfold binary_round_aux.
  pose proof (shr_fexp_nonneg m e l Hm) as H1.
  destruct (shr_fexp prec emax m e l) as [mrs' e']. cbn [fst] in H1.
  set (m2 := round_nearest_even (shr_m mrs') (loc_of_shr_record mrs')).
  assert (H2 : 0 <= m2).
  { destruct (round_nearest_even_cases (shr_m mrs') (loc_of_shr_record mrs'))
      as [R|R]; fold m2 in R; lia. }
  pose proof (shr_fexp_nonneg m2 e' loc_Exact H2) as H3.
  destruct (shr_fexp prec emax m2 e' loc_Exact) as [mrs'' e'']. cbn [fst] in H3.
  destruct (shr_m mrs'') as [|q|q]; [| |lia].
  - split; [discriminate | reflexivity].
  - destruct (e'' <=? emax - prec); split; (discriminate || reflexivity).
Qed.

Lemma fdiv_finite_sign (sx sy : bool) (mx my : positive) (ex ey : Z) :
  minus_sign (fdiv (S754_finite sx mx ex) (S754_finite sy my ey))
    = xorb sx sy.
Proof.
  unfold fdiv, SFdiv.
  destruct (SFdiv_core_binary prec emax (Zpos mx) ex (Zpos my) ey)
    as [[mz ez] lz] eqn:E.
  apply binary_round_aux_sign.
  unfold SFdiv_core_binary in E.
  match type of E with
  | (let '(q, r) := Z.div_eucl ?a ?b in _) = _ =>
      assert (Hq : 0 <= fst (Z.div_eucl a b));
      [ change (fst (Z.div_eucl a b)) with (a / b);
        apply Z.div_pos; [|lia]
      | destruct (Z.div_eucl a b) as [q r]; inversion E; subst; exact Hq ]
  end.
  destruct (ex - ey - _) as [|s|s]; try lia.
  apply Z.shiftl_nonneg. lia.
Qed.

(** A negative integer over a positive one, as floats. *)
Lemma fdiv_negative_by_positive (a b : Z) (fa fb : float) :
  a < 0 -> 0 < b -> float_of_int a = Ok fa -> float_of_int b = Ok fb ->
  minus_sign (fdiv fa fb) = true.
Proof.
  intros Ha Hb Fa Fb.
  destruct (float_of_int_sign a fa) as (ma & ea & ->); [lia | exact Fa |].
  destruct (float_of_int_sign b fb) as (mb & eb & ->); [lia | exact Fb |].
  rewrite fdiv_finite_sign.
  replace (a <? 0) with true by (symmetry; apply Z.ltb_lt; lia).
  replace (b <? 0) with false by (symmetry; apply Z.ltb_ge; lia).
  reflexivity.
Qed.

Lemma finite_positive_as_float (interval : number) (iv : float) :
  finite_positive interval = true -> as_float interval = Ok iv ->
  exists m e, iv = S754_finite false m e.
Proof.
  destruct interval as [n|f]; cbn [finite_positive as_float]; intros Hp H.
  - apply Z.ltb_lt in Hp.
    destruct (float_of_int_sign n iv) as (m & e & ->); [lia | exact H |].
    replace (n <? 0) with false by (symmetry; apply Z.ltb_ge; lia).
    now exists m, e.
  - inversion H; subst. destruct iv as [| | |[] m e]; try discriminate.
    now exists m, e.
Qed.

(** A negative integer over a positive finite interval, as floats. *)
Lemma fdiv_negative_by_interval (a : Z) (fa : float) (interval : number)
    (iv : float) :
  a < 0 -> float_of_int a = Ok fa ->
  finite_positive interval = true -> as_float interval = Ok iv ->
  minus_sign (fdiv fa iv) = true.
Proof.
  intros Ha Fa Hp Hiv.
  destruct (float_of_int_sign a fa) as (ma & ea & ->); [lia | exact Fa |].
  destruct (finite_positive_as_float interval iv Hp Hiv) as (m & e & ->).
  rewrite fdiv_finite_sign.
  replace (a <? 0) with true by (symmetry; apply Z.ltb_lt; lia).
  reflexivity.
Qed.

(** The same through the division by [1000.0] of [CpuUtil]. *)
Lemma fdiv_1000_negative_by_interval (a : Z) (fa : float)
    (interval : number) (iv : float) :
  a < 0 -> float_of_int a = Ok fa ->
  finite_positive interval = true -> as_float interval = Ok iv ->
  minus_sign (fdiv (fdiv fa f1000) iv) = true.
Proof.
  intros Ha Fa Hp Hiv.
  destruct (float_of_int_sign a fa) as (ma & ea & ->); [lia | exact Fa |].
  destruct (finite_positive_as_float interval iv Hp Hiv) as (m & e & ->).
  replace (a <? 0) with true by (symmetry; apply Z.ltb_lt; lia).
  assert (exists m1 e1, f1000 = S754_finite false m1 e1)
    as (m1 & e1 & E1) by (unfold f1000; eauto).
  pose proof (fdiv_finite_sign true false ma m1 ea e1) as S1.
  rewrite <- E1 in S1.
  destruct (fdiv (S754_finite true ma ea) f1000) as [s|s| |s m' e'];
    cbn [minus_sign xorb] in S1; subst; try discriminate.
  - reflexivity.
  - reflexivity.
  - now rewrite fdiv_finite_sign.
Qed.

(** ** Dictionaries *)

Lemma dict_get_set_same {V} (k : string) (v : V) (d : dict V) :
  dict_get k (dict_set k v d) = Some v.
Proof.
  induction d as [|[k' v'] d IH]; simpl.
  - now rewrite String.eqb_refl.
  - destruct (String.eqb k k') eqn:E; simpl; rewrite ?String.eqb_refl, ?E; auto.
Qed.

Lemma dict_get_set_other {V} (k k' : string) (v : V) (d : dict V) :
  k <> k' -> dict_get k (dict_set k' v d) = dict_get k d.
Proof.
  intros Hk. induction d as [|[k2 v2] d IH]; simpl.
  - apply String.eqb_neq in Hk. now rewrite Hk.
  - destruct (String.eqb k' k2) eqn:E; simpl.
    + apply String.eqb_eq in E; subst k2.
      apply String.eqb_neq in Hk. now rewrite Hk.
    + destruct (String.eqb k k2); auto.
Qed.

Lemma dict_get_In {V} (k : string) (v : V) (d : dict V) :
  dict_wf d = true -> In (k, v) d -> dict_get k d = Some v.
Proof.
  induction d as [|[k' v'] d IH]; simpl; [tauto|].
  intros Hwf [Heq | Hin].
  - inversion Heq; subst. now rewrite String.eqb_refl.
  - apply andb_prop in Hwf as [Hk Hwf].
    destruct (String.eqb k k') eqn:E; [|auto].
    apply String.eqb_eq in E; subst k'.
    unfold dict_mem in Hk. rewrite (IH Hwf Hin) in Hk. discriminate.
Qed.

Lemma dict_wf_set {V} (k : string) (v : V) (d : dict V) :
  dict_wf d = true -> dict_wf (dict_set k v d) = true.
Proof.
  induction d as [|[k' v'] d IH]; simpl; [reflexivity|].
  intros Hwf. apply andb_prop in Hwf as [Hk Hwf].
  destruct (String.eqb k k') eqn:E; simpl.
  - apply String.eqb_eq in E; subst k'. now rewrite Hk, Hwf.
  - rewrite IH by assumption. unfold dict_mem in *.
    rewrite dict_get_set_other, Hk; [reflexivity|].
    apply String.eqb_neq. now rewrite String.eqb_sym.
Qed.

(** The fetched snapshot is a well-formed dictionary. *)
Lemma plancache_of_rows_wf (rows : list PlanRow) :
  dict_wf (plancache_of_rows rows) = true.
Proof.
  unfold plancache_of_rows.
  assert (G : forall d : dict PlanRow, dict_wf d = true ->
    dict_wf (fold_left (fun d r =>
       if String.eqb (query_text r) GET_PLANCACHE_QUERY then d
       else dict_set (plan_hash r) r d) rows d) = true).
  { induction rows as [|r rows IH]; intros d Hd; simpl; [exact Hd|].
    apply IH. destruct (String.eqb _ _); [exact Hd | now apply dict_wf_set]. }
  now apply G.
Qed.

(** ** [NormalizeDiffPlanCacheEntry] *)

Ltac split_conversions :=
  repeat match goal with
    | |- context [float_of_int ?n] =>
        let E := fresh "E" in destruct (float_of_int n) eqn:E; cbn [rbind]
    | |- context [as_float ?x] =>
        let E := fresh "E" in destruct (as_float x) eqn:E; cbn [rbind]
    | |- context [is_zero ?f] =>
        let E := fresh "Z" in destruct (is_zero f) eqn:E; cbn [rbind]
    end.

(** When the normalisation returns, every conversion succeeded, no divisor
    was zero, and the fields are the IEEE quotients of the source. *)
Lemma Normalize_inv (interval : number) (db q : string)
    (c r u e m qd : Z) (ent : DiffEntry) :
  NormalizeDiffPlanCacheEntry interval db q c r u e m qd = Ok ent ->
  exists iv fc fr fu fe fm fq,
    as_float interval = Ok iv /\ is_zero iv = false /\
    float_of_int c = Ok fc /\ is_zero fc = false /\
    float_of_int r = Ok fr /\ float_of_int u = Ok fu /\
    float_of_int e = Ok fe /\ float_of_int m = Ok fm /\
    float_of_int qd = Ok fq /\
    ent = {| Database := db; Query := q;
             Executions_sec := fdiv fc iv;
             RowCount_sec := fdiv fr iv;
             CpuUtil := fdiv (fdiv fu f1000) iv;
             ExecutionTime_query := fdiv fe fc;
             Memory_query := fdiv fm fc;
             QueuedTime_query := fdiv fq fc |}.
Proof.
  unfold NormalizeDiffPlanCacheEntry, truediv, CheckHasDataForAllColumns.
  change (as_float (PyFloat f1000)) with (Ok f1000).
  change (is_zero f1000) with false.
  cbn [as_float]. split_conversions; intros H; try discriminate.
  inversion H; subst ent. repeat eexists; reflexivity || assumption.
Qed.

Lemma Normalize_ok (interval : number) (db q : string)
    (c r u e m qd : Z) (iv fc fr fu fe fm fq : float) :
  as_float interval = Ok iv -> is_zero iv = false ->
  float_of_int c = Ok fc -> is_zero fc = false ->
  float_of_int r = Ok fr -> float_of_int u = Ok fu ->
  float_of_int e = Ok fe -> float_of_int m = Ok fm ->
  float_of_int qd = Ok fq ->
  NormalizeDiffPlanCacheEntry interval db q c r u e m qd =
    Ok {| Database := db; Query := q;
          Executions_sec := fdiv fc iv;
          RowCount_sec := fdiv fr iv;
          CpuUtil := fdiv (fdiv fu f1000) iv;
          ExecutionTime_query := fdiv fe fc;
          Memory_query := fdiv fm fc;
          QueuedTime_query := fdiv fq fc |}.
Proof.
  intros Hiv Ziv Hc Zc Hr Hu He Hm Hq.
  unfold NormalizeDiffPlanCacheEntry, truediv, CheckHasDataForAllColumns.
  cbn [as_float].
  rewrite Hiv, Hc, Hr, Hu, He, Hm, Hq. cbn [rbind].
  rewrite Ziv, Zc. reflexivity.
Qed.

(** With a positive commit count and a positive interval the normalisation
    divides by no zero. *)
Lemma Normalize_no_zero_division (interval : number) (db q : string)
    (c r u e m qd : Z) :
  0 < c -> is_positive interval = true ->
  NormalizeDiffPlanCacheEntry interval db q c r u e m qd
    <> Raise ZeroDivisionError.
Proof.
  intros Hc Hi.
  unfold NormalizeDiffPlanCacheEntry, truediv, CheckHasDataForAllColumns.
  change (as_float (PyFloat f1000)) with (Ok f1000).
  change (is_zero f1000) with false.
  cbn [as_float]. split_conversions; try discriminate;
    repeat match goal with
      | H : float_of_int _ = Raise _ |- _ =>
          apply float_of_int_raises in H; subst
      | H : as_float _ = Raise _ |- _ =>
          apply as_float_raises in H; subst
      end; try discriminate;
    match goal with
    | H : as_float ?x = Ok ?f, Z : is_zero ?f = true |- _ =>
        rewrite (is_positive_nonzero x f Hi H) in Z; discriminate
    | H : float_of_int ?n = Ok ?f, Z : is_zero ?f = true |- _ =>
        rewrite (float_of_int_nonzero n f) in Z;
        [discriminate | lia | exact H]
    end.
Qed.

(** ** [DiffPlanCache] *)

(** Both branches of the loop body are one test on the commit delta. *)
Lemma DiffPlanCache_body_delta (old : dict PlanRow) (interval : number)
    (diff : dict DiffEntry) (key : string) (n_ent : PlanRow) :
  DiffPlanCache_body old interval diff (key, n_ent) =
    if 0 <? delta old commits key n_ent
    then rbind (normalized old interval key n_ent)
           (fun e => Ok (dict_set key e diff))
    else Ok diff.
Proof.
  unfold DiffPlanCache_body, normalized, delta.
  destruct (dict_get key old); reflexivity.
Qed.

(** The loop invariant: what the dictionary under construction holds at a
    key once the remaining items are processed. *)
Lemma DiffPlanCache_loop (old : dict PlanRow) (interval : number) :
  forall (l : dict PlanRow) (acc diff : dict DiffEntry),
    dict_wf l = true ->
    foldM (DiffPlanCache_body old interval) l acc = Ok diff ->
    forall k,
      match dict_get k l with
      | Some n_ent =>
          if 0 <? delta old commits k n_ent
          then exists e, normalized old interval k n_ent = Ok e /\
                         dict_get k diff = Some e
          else dict_get k diff = dict_get k acc
      | None => dict_get k diff = dict_get k acc
      end.
Proof.
  induction l as [|[k' n'] l IH]; intros acc diff Hwf H k.
  - simpl in *. now inversion H.
  - cbn [foldM] in H. rewrite DiffPlanCache_body_delta in H.
    cbn [dict_wf] in Hwf. apply andb_prop in Hwf as [Hk' Hwf].
    assert (Hnone : dict_get k' l = None).
    { unfold dict_mem in Hk'. now destruct (dict_get k' l). }
    cbn [dict_get].
    destruct (0 <? delta old commits k' n') eqn:Hd.
    + destruct (normalized old interval k' n') as [e|x] eqn:Hn;
        cbn [rbind] in H; [|discriminate].
      pose proof (IH _ _ Hwf H) as IH'.
      destruct (String.eqb k k') eqn:E.
      * apply String.eqb_eq in E; subst k'. rewrite Hd.
        exists e. split; [exact Hn|].
        specialize (IH' k). rewrite Hnone in IH'.
        now rewrite IH', dict_get_set_same.
      * apply String.eqb_neq in E. specialize (IH' k).
        rewrite dict_get_set_other in IH' by exact E. exact IH'.
    + cbn [rbind] in H. pose proof (IH _ _ Hwf H k) as IH'.
      destruct (String.eqb k k') eqn:E; [|exact IH'].
      apply String.eqb_eq in E; subst k'. rewrite Hd.
      now rewrite Hnone in IH'.
Qed.

Section DiffFacts.

Variables (new old : dict PlanRow) (interval : number).
Variable diff : dict DiffEntry.
Hypothesis Hwf : dict_wf new = true.
Hypothesis Hdiff : DiffPlanCache new old interval = Ok diff.

(** An entry whose commit delta is not positive is left out. *)
Lemma DiffPlanCache_skip (k : string) (n_ent : PlanRow) :
  dict_get k new = Some n_ent -> delta old commits k n_ent <= 0 ->
  dict_get k diff = None.
Proof.
  intros Hn Hd. pose proof (DiffPlanCache_loop old interval new [] diff
                              Hwf Hdiff k) as L.
  rewrite Hn in L.
  replace (0 <? delta old commits k n_ent) with false in L
    by (symmetry; apply Z.ltb_ge; exact Hd).
  exact L.
Qed.

(** An entry whose commit delta is positive is kept, normalised. *)
Lemma DiffPlanCache_keep (k : string) (n_ent : PlanRow) :
  dict_get k new = Some n_ent -> 0 < delta old commits k n_ent ->
  exists e, normalized old interval k n_ent = Ok e /\
            dict_get k diff = Some e.
Proof.
  intros Hn Hd. pose proof (DiffPlanCache_loop old interval new [] diff
                              Hwf Hdiff k) as L.
  rewrite Hn in L.
  replace (0 <? delta old commits k n_ent) with true in L
    by (symmetry; apply Z.ltb_lt; exact Hd).
  exact L.
Qed.

(** A key that is not in the new snapshot is not in the result. *)
Lemma DiffPlanCache_absent (k : string) :
  dict_get k new = None -> dict_get k diff = None.
Proof.
  intros Hn. pose proof (DiffPlanCache_loop old interval new [] diff
                           Hwf Hdiff k) as L.
  now rewrite Hn in L.
Qed.

(** Every entry of the result comes from a new entry with a positive
    commit delta, and is its normalisation. *)
Lemma DiffPlanCache_inv (k : string) (e : DiffEntry) :
  dict_get k diff = Some e ->
  exists n_ent, dict_get k new = Some n_ent /\
                0 < delta old commits k n_ent /\
                normalized old interval k n_ent = Ok e.
Proof.
  intros He. destruct (dict_get k new) as [n_ent|] eqn:Hn.
  - exists n_ent. destruct (Z.ltb_spec 0 (delta old commits k n_ent)) as [Hd|Hd].
    + destruct (DiffPlanCache_keep k n_ent Hn Hd) as (e' & Hn' & He').
      split; [reflexivity|]. split; [exact Hd|]. congruence.
    + rewrite (DiffPlanCache_skip k n_ent Hn Hd) in He. discriminate.
  - rewrite (DiffPlanCache_absent k Hn) in He. discriminate.
Qed.

End DiffFacts.

(** With a positive interval no iteration of the loop divides by zero. *)
Lemma DiffPlanCache_loop_no_zero_division (old : dict PlanRow)
    (interval : number) :
  is_positive interval = true ->
  forall (l : dict PlanRow) (acc : dict DiffEntry),
    foldM (DiffPlanCache_body old interval) l acc <> Raise ZeroDivisionError.
Proof.
  intros Hi. induction l as [|[k n] l IH]; intros acc; cbn [foldM].
  - discriminate.
  - rewrite DiffPlanCache_body_delta.
    destruct (Z.ltb_spec 0 (delta old commits k n)) as [Hd|Hd]; cbn [rbind].
    + destruct (normalized old interval k n) as [e|x] eqn:Hn; cbn [rbind].
      * apply IH.
      * intros Hx. inversion Hx; subst x. revert Hn.
        now apply Normalize_no_zero_division.
    + apply IH.
Qed.

(** ** The engine returns on realistic inputs *)

Lemma row_bounded_fields (r : PlanRow) :
  row_bounded r = true ->
  Z.abs (commits r) < 2 ^ 1022 /\ Z.abs (rowcount r) < 2 ^ 1022 /\
  Z.abs (execution_time r) < 2 ^ 1022 /\ Z.abs (queued_time r) < 2 ^ 1022 /\
  Z.abs (cpu_time r) < 2 ^ 1022 /\ Z.abs (memory_use r) < 2 ^ 1022.
Proof.
  unfold row_bounded. cbn [forallb]. intros H.
  repeat (apply andb_prop in H as [?%Z.ltb_lt H]). tauto.
Qed.

Lemma delta_bounded (old : dict PlanRow) (counter : PlanRow -> Z)
    (k : string) (n_ent : PlanRow) :
  Z.abs (counter n_ent) < 2 ^ 1022 ->
  (forall o_ent, dict_get k old = Some o_ent ->
                 Z.abs (counter o_ent) < 2 ^ 1022) ->
  Z.abs (delta old counter k n_ent) < 2 ^ 1023.
Proof.
  intros Hn Ho. unfold delta.
  change (2 ^ 1023) with (2 * 2 ^ 1022).
  destruct (dict_get k old) as [o|]; [specialize (Ho o eq_refl)|]; lia.
Qed.

Lemma dict_get_values {V} (k : string) (v : V) (d : dict V) :
  dict_get k d = Some v -> In v (values d).
Proof.
  induction d as [|[k' v'] d IH]; simpl; [discriminate|].
  destruct (String.eqb k k'); intros H; [inversion H; auto | auto].
Qed.

Lemma normalized_returns (old : dict PlanRow) (interval : number)
    (k : string) (n_ent : PlanRow) :
  snapshot_bounded old = true -> row_bounded n_ent = true ->
  interval_usable interval = true -> 0 < delta old commits k n_ent ->
  exists e, normalized old interval k n_ent = Ok e.
Proof.
  intros Ho Hn Hi Hd.
  apply row_bounded_fields in Hn as (Hc & Hr & He & Hq & Hu & Hm).
  assert (Hold : forall o, dict_get k old = Some o -> row_bounded o = true).
  { intros o Hg. unfold snapshot_bounded in Ho.
    rewrite forallb_forall in Ho. apply Ho. eapply dict_get_values, Hg. }
  assert (B : forall counter : PlanRow -> Z,
             Z.abs (counter n_ent) < 2 ^ 1022 ->
             (forall o, row_bounded o = true ->
                        Z.abs (counter o) < 2 ^ 1022) ->
             exists f, float_of_int (delta old counter k n_ent) = Ok f).
  { intros counter H1 H2. apply float_of_int_finite, delta_bounded; auto. }
  destruct (B commits Hc) as [fc Fc];
    [intros o Hb; now apply row_bounded_fields in Hb|].
  destruct (B rowcount Hr) as [fr Fr];
    [intros o Hb; now apply row_bounded_fields in Hb|].
  destruct (B cpu_time Hu) as [fu Fu];
    [intros o Hb; now apply row_bounded_fields in Hb|].
  destruct (B execution_time He) as [fe Fe];
    [intros o Hb; now apply row_bounded_fields in Hb|].
  destruct (B memory_use Hm) as [fm Fm];
    [intros o Hb; now apply row_bounded_fields in Hb|].
  destruct (B queued_time Hq) as [fq Fq];
    [intros o Hb; now apply row_bounded_fields in Hb|].
  unfold interval_usable in Hi.
  destruct (as_float interval) as [iv|] eqn:Hiv; [|discriminate].
  apply negb_true_iff in Hi.
  eexists. unfold normalized.
  apply (Normalize_ok interval _ _ _ _ _ _ _ _ iv fc fr fu fe fm fq); auto.
  apply (float_of_int_nonzero (delta old commits k n_ent)); [lia | exact Fc].
Qed.

(** [DiffPlanCache] returns a dictionary when the counters are of
    realistic size and the interval is a non-zero float. *)
Lemma DiffPlanCache_returns (new old : dict PlanRow) (interval : number) :
  snapshot_bounded new = true -> snapshot_bounded old = true ->
  interval_usable interval = true ->
  exists diff, DiffPlanCache new old interval = Ok diff.
Proof.
  intros Hn Ho Hi. unfold DiffPlanCache, items.
  generalize (@nil (string * DiffEntry)) as acc.
  induction new as [|[k n] l IH]; intros acc; cbn [foldM].
  - now exists acc.
  - unfold snapshot_bounded in Hn. cbn [values map forallb snd] in Hn.
    apply andb_prop in Hn as [Hb Hl].
    rewrite DiffPlanCache_body_delta.
    destruct (Z.ltb_spec 0 (delta old commits k n)) as [Hd|Hd]; cbn [rbind].
    + destruct (normalized_returns old interval k n Ho Hb Hi Hd) as [e ->].
      cbn [rbind]. now apply IH.
    + now apply IH.
Qed.

(** Diffing against itself skips every entry. *)
Lemma DiffPlanCache_self_loop (s : dict PlanRow) (interval : number) :
  dict_wf s = true ->
  forall (l : dict PlanRow) (acc : dict DiffEntry),
    incl l s ->
    foldM (DiffPlanCache_body s interval) l acc = Ok acc.
Proof.
  intros Hwf. induction l as [|[k n] l IH]; intros acc Hincl; cbn [foldM].
  - reflexivity.
  - rewrite DiffPlanCache_body_delta. unfold delta.
    rewrite (dict_get_In k n s Hwf) by (apply Hincl; now left).
    rewrite Z.sub_diag. cbn [Z.ltb Z.compare rbind].
    apply IH. intros x Hx. apply Hincl. now right.
Qed.

(** ** [sum] and [poll] *)

Lemma sum_from_float (xs : list float) (a : float) :
  foldM add xs (PyFloat a) = Ok (PyFloat (fold_left fadd xs a)).
Proof.
  revert a. induction xs as [|x xs IH]; intros a; cbn [foldM fold_left].
  - reflexivity.
  - unfold add at 1. cbn [as_float rbind]. apply IH.
Qed.

(** [sum] of the [CpuUtil] fields never raises and is the total. *)
Lemma sum_CpuUtil (diff : dict DiffEntry) :
  Py.sum (map CpuUtil (values diff)) = Ok (TotalCpuUtilization diff).
Proof.
  unfold Py.sum, TotalCpuUtilization.
  destruct (values diff) as [|e es]; cbn [map foldM].
  - reflexivity.
  - unfold add at 1. cbn [as_float]. rewrite float_of_int_zero.
    cbn [rbind]. rewrite sum_from_float. do 2 f_equal.
    generalize (fadd pzero (CpuUtil e)) as a.
    induction es as [|e' es IH]; intros a; cbn [map fold_left]; auto.
Qed.

(** What a cycle returns, leaves and does, by the outcome of its steps. *)
Lemma poll_run (float_of_str : string -> result float) (conn : Conn)
    (self : DatabasePoller) :
  poll float_of_str conn self =
    match conn_query conn GET_PLANCACHE_QUERY with
    | Raise x =>
        (Raise x, self,
         [set_alarm_in (update_interval self); query GET_PLANCACHE_QUERY])
    | Ok rows =>
        let new_plancache := plancache_of_rows rows in
        match DiffPlanCache new_plancache (plancache self)
                (update_interval self) with
        | Raise x =>
            (Raise x, self,
             [set_alarm_in (update_interval self); query GET_PLANCACHE_QUERY])
        | Ok diff =>
            match memory_step float_of_str conn with
            | Raise x =>
                (Raise x, set_plancache new_plancache self,
                 trace_to_lookup self diff)
            | Ok mem =>
                (Ok tt, set_plancache new_plancache self,
                 (trace_to_lookup self diff ++
                  [emit mem_usage_changed (Num (PyFloat mem))])%list)
            end
        end
    end.
Proof.
  unfold poll, GetPlanCache, db_query, db_get, memory_step, trace_to_lookup,
    bind, tell, lift, read, write, ret.
  destruct (conn_query conn GET_PLANCACHE_QUERY) as [rows|x]; [|reflexivity].
  cbn zeta.
  destruct (DiffPlanCache (plancache_of_rows rows) (plancache self)
              (update_interval self)) as [diff|x]; [|reflexivity].
  rewrite sum_CpuUtil.
  destruct (conn_get conn TOTAL_SERVER_MEMORY_QUERY) as [tsm_row|x];
    [|reflexivity].
  cbn [rbind].
  destruct (attr_Value tsm_row) as [value|x]; [|reflexivity].
  cbn [rbind].
  destruct (index0 (split_space value)) as [token|x]; [|reflexivity].
  cbn [rbind].
  destruct (float_of_str token) as [mem|x]; reflexivity.
Qed.

(** The outcome of the plan-cache step decides how far a cycle gets. *)
Lemma poll_plancache_raises (float_of_str : string -> result float)
    (conn : Conn) (self : DatabasePoller) (x : exn) :
  plancache_step conn self = Raise x ->
  poll float_of_str conn self =
    (Raise x, self,
     [set_alarm_in (update_interval self); query GET_PLANCACHE_QUERY]).
Proof.
  unfold plancache_step. rewrite poll_run.
  destruct (conn_query conn GET_PLANCACHE_QUERY) as [rows|y]; cbn [rbind].
  - cbn zeta. intros ->. reflexivity.
  - intros H; inversion H; reflexivity.
Qed.

Lemma poll_plancache_returns (float_of_str : string -> result float)
    (conn : Conn) (self : DatabasePoller) (diff : dict DiffEntry) :
  plancache_step conn self = Ok diff ->
  trace (poll float_of_str conn self) =
    (trace_to_lookup self diff ++
     match memory_step float_of_str conn with
     | Ok mem => [emit mem_usage_changed (Num (PyFloat mem))]
     | Raise _ => []
     end)%list.
Proof.
  unfold plancache_step. rewrite poll_run.
  destruct (conn_query conn GET_PLANCACHE_QUERY) as [rows|y]; cbn [rbind];
    [|discriminate].
  cbn zeta. intros ->.
  destruct (memory_step float_of_str conn) as [mem|x]; unfold trace; cbn [snd].
  - reflexivity.
  - now rewrite app_nil_r.
Qed.

(** * The claims *)

(** C1 (commit filter). A plan identity present in both snapshots whose
    commit delta [new.commits - old.commits] is zero or negative (an
    unchanged plan, or a counter reset) does not appear in the result of
    [DiffPlanCache]. *)
Theorem C1_commit_filter (new old : dict PlanRow) (interval : number)
    (diff : dict DiffEntry) (k : string) (n_ent o_ent : PlanRow) :
  dict_wf new = true ->
  DiffPlanCache new old interval = Ok diff ->
  dict_get k new = Some n_ent ->
  dict_get k old = Some o_ent ->
  commits n_ent - commits o_ent <= 0 ->
  dict_get k diff = None.
Proof.
  intros Hwf Hdiff Hn Ho Hd.
  apply (DiffPlanCache_skip new old interval diff Hwf Hdiff k n_ent Hn).
  unfold delta. now rewrite Ho.
Qed.

Lemma C1_commit_filter_witness :
  dict_get "B" Ex.diff_plancache = None /\
  dict_get "C" Ex.diff_plancache = None.
Proof.
  split.
  - apply (C1_commit_filter Ex.new_plancache Ex.old_plancache (PyInt 5)
             Ex.diff_plancache "B"
             (Ex.row "B" 7 70 10 10 10 10) (Ex.row "B" 7 70 10 10 10 10));
      vm_compute; (reflexivity || discriminate).
  - apply (C1_commit_filter Ex.new_plancache Ex.old_plancache (PyInt 5)
             Ex.diff_plancache "C"
             (Ex.row "C" 5 50 5 5 5 5) (Ex.row "C" 20 200 20 20 20 20));
      vm_compute; (reflexivity || discriminate).
Defined.

(** C2 (new entries). For a plan identity present in the new snapshot and
    absent from the old one: every delta is the raw counter of the new
    entry; with [commits = 0] the identity is not in the result; with
    [commits > 0] it is in the result, as the normalisation of the raw
    counters. The engine does return a result when the counters are of
    realistic size and the interval is a non-zero float. *)
Theorem C2_new_entry (new old : dict PlanRow) (interval : number)
    (k : string) (n_ent : PlanRow) :
  dict_wf new = true ->
  dict_get k new = Some n_ent ->
  dict_get k old = None ->
  (forall counter, delta old counter k n_ent = counter n_ent) /\
  (forall diff, DiffPlanCache new old interval = Ok diff ->
     (commits n_ent = 0 -> dict_get k diff = None) /\
     (0 < commits n_ent ->
      exists e,
        dict_get k diff = Some e /\
        NormalizeDiffPlanCacheEntry interval
          (database_name n_ent) (query_text n_ent)
          (commits n_ent) (rowcount n_ent) (cpu_time n_ent)
          (execution_time n_ent) (memory_use n_ent) (queued_time n_ent)
        = Ok e)) /\
  (snapshot_bounded new = true -> snapshot_bounded old = true ->
   interval_usable interval = true ->
   exists diff, DiffPlanCache new old interval = Ok diff).
Proof.
  intros Hwf Hn Ho.
  assert (Hraw : forall counter, delta old counter k n_ent = counter n_ent)
    by (intros counter; unfold delta; now rewrite Ho).
  split; [exact Hraw|]. split.
  - intros diff Hdiff. split.
    + intros Hc.
      apply (DiffPlanCache_skip new old interval diff Hwf Hdiff k n_ent Hn).
      rewrite Hraw. lia.
    + intros Hc.
      destruct (DiffPlanCache_keep new old interval diff Hwf Hdiff k n_ent Hn)
        as (e & He & Hg); [rewrite Hraw; exact Hc|].
      exists e. split; [exact Hg|].
      unfold normalized in He. now rewrite !Hraw in He.
  - apply DiffPlanCache_returns.
Qed.

Lemma C2_new_entry_witness :
  dict_get "F" Ex.diff_plancache = None /\
  (exists e,
     dict_get "E" Ex.diff_plancache = Some e /\
     NormalizeDiffPlanCacheEntry (PyInt 5) "db" "select * from t"
       4 8 2000 1000 4096 12 = Ok e) /\
  (exists diff,
     DiffPlanCache Ex.new_plancache Ex.old_plancache (PyInt 5) = Ok diff).
Proof.
  split; [|split].
  - apply (C2_new_entry Ex.new_plancache Ex.old_plancache (PyInt 5) "F"
             (Ex.row "F" 0 0 0 0 0 0)); vm_compute; reflexivity.
  - apply (C2_new_entry Ex.new_plancache Ex.old_plancache (PyInt 5) "E"
             (Ex.row "E" 4 8 1000 12 2000 4096)); vm_compute; reflexivity.
  - apply (C2_new_entry Ex.new_plancache Ex.old_plancache (PyInt 5) "E"
             (Ex.row "E" 4 8 1000 12 2000 4096)); vm_compute; reflexivity.
Defined.

(** C3 (rates). Every entry of the result comes from an entry of the new
    snapshot, and its rate fields are the float quotients
    [Executions/sec = float(dcommits) / interval],
    [RowCount/sec = float(drowcount) / interval] and
    [CpuUtil = float(dcpu_time) / 1000.0 / interval], where each delta is
    new minus old for a key known in the old snapshot and the raw new
    counter otherwise. *)
Theorem C3_rates (new old : dict PlanRow) (interval : number)
    (diff : dict DiffEntry) (k : string) (r : DiffEntry) :
  dict_wf new = true ->
  DiffPlanCache new old interval = Ok diff ->
  dict_get k diff = Some r ->
  exists n_ent iv dc dr du,
    dict_get k new = Some n_ent /\
    as_float interval = Ok iv /\
    float_of_int (delta old commits k n_ent) = Ok dc /\
    float_of_int (delta old rowcount k n_ent) = Ok dr /\
    float_of_int (delta old cpu_time k n_ent) = Ok du /\
    Executions_sec r = fdiv dc iv /\
    RowCount_sec r = fdiv dr iv /\
    CpuUtil r = fdiv (fdiv du f1000) iv.
Proof.
  intros Hwf Hdiff Hr.
  destruct (DiffPlanCache_inv new old interval diff Hwf Hdiff k r Hr)
    as (n_ent & Hn & _ & Hnorm).
  apply Normalize_inv in Hnorm
    as (iv & fc & fr & fu & fe & fm & fq & Hiv & _ & Hc & _ & Hrc & Hu & _ & _ & _ & ->).
  exists n_ent, iv, fc, fr, fu. cbn. auto 10.
Qed.

Lemma C3_rates_witness :
  exists n_ent iv dc dr du,
    dict_get "A" Ex.new_plancache = Some n_ent /\
    as_float (PyInt 5) = Ok iv /\
    float_of_int (delta Ex.old_plancache commits "A" n_ent) = Ok dc /\
    float_of_int (delta Ex.old_plancache rowcount "A" n_ent) = Ok dr /\
    float_of_int (delta Ex.old_plancache cpu_time "A" n_ent) = Ok du /\
    Executions_sec Ex.entry_A = fdiv dc iv /\
    RowCount_sec Ex.entry_A = fdiv dr iv /\
    CpuUtil Ex.entry_A = fdiv (fdiv du f1000) iv.
Proof.
  apply (C3_rates Ex.new_plancache Ex.old_plancache (PyInt 5)
           Ex.diff_plancache "A" Ex.entry_A); vm_compute; reflexivity.
Defined.

(** C4 (per-query averages, no division by zero). With a positive
    interval [DiffPlanCache] never raises [ZeroDivisionError], whatever the
    snapshots. Every entry of the result has a strictly positive commit
    delta, whose float is not zero, and its per-query fields are the float
    quotients [ExecutionTime/query = float(dexecution_time) / float(dcommits)],
    [Memory/query = float(dmemory_use) / float(dcommits)] and
    [QueuedTime/query = float(dqueued_time) / float(dcommits)]. *)
Theorem C4_per_query (new old : dict PlanRow) (interval : number) :
  (is_positive interval = true ->
   DiffPlanCache new old interval <> Raise ZeroDivisionError) /\
  (dict_wf new = true ->
   forall diff k r,
     DiffPlanCache new old interval = Ok diff ->
     dict_get k diff = Some r ->
     exists n_ent dc de dm dq,
       dict_get k new = Some n_ent /\
       0 < delta old commits k n_ent /\
       float_of_int (delta old commits k n_ent) = Ok dc /\
       is_zero dc = false /\
       float_of_int (delta old execution_time k n_ent) = Ok de /\
       float_of_int (delta old memory_use k n_ent) = Ok dm /\
       float_of_int (delta old queued_time k n_ent) = Ok dq /\
       ExecutionTime_query r = fdiv de dc /\
       Memory_query r = fdiv dm dc /\
       QueuedTime_query r = fdiv dq dc).
Proof.
  split.
  - intros Hi. now apply DiffPlanCache_loop_no_zero_division.
  - intros Hwf diff k r Hdiff Hr.
    destruct (DiffPlanCache_inv new old interval diff Hwf Hdiff k r Hr)
      as (n_ent & Hn & Hd & Hnorm).
    apply Normalize_inv in Hnorm
      as (iv & fc & fr & fu & fe & fm & fq &
          _ & _ & Hc & Zc & _ & _ & He & Hm & Hq & ->).
    exists n_ent, fc, fe, fm, fq. cbn. auto 12.
Qed.

Lemma C4_per_query_witness :
  DiffPlanCache Ex.new_plancache Ex.old_plancache (PyInt 5)
    <> Raise ZeroDivisionError /\
  exists n_ent dc de dm dq,
    dict_get "A" Ex.new_plancache = Some n_ent /\
    0 < delta Ex.old_plancache commits "A" n_ent /\
    float_of_int (delta Ex.old_plancache commits "A" n_ent) = Ok dc /\
    is_zero dc = false /\
    float_of_int (delta Ex.old_plancache execution_time "A" n_ent) = Ok de /\
    float_of_int (delta Ex.old_plancache memory_use "A" n_ent) = Ok dm /\
    float_of_int (delta Ex.old_plancache queued_time "A" n_ent) = Ok dq /\
    ExecutionTime_query Ex.entry_A = fdiv de dc /\
    Memory_query Ex.entry_A = fdiv dm dc /\
    QueuedTime_query Ex.entry_A = fdiv dq dc.
Proof.
  split.
  - apply (C4_per_query Ex.new_plancache Ex.old_plancache (PyInt 5)).
    vm_compute; reflexivity.
  - apply (proj2 (C4_per_query Ex.new_plancache Ex.old_plancache (PyInt 5))
             eq_refl Ex.diff_plancache "A" Ex.entry_A);
      vm_compute; reflexivity.
Defined.

(** C5 (aggregate). In a cycle whose fetch and diff succeed, exactly one
    [cpu_util_changed] is emitted; its value is the sum of the [CpuUtil]
    fields of the records of the diff result emitted as
    [plancache_changed] in the same cycle, added in iteration order, and
    the integer [0] when that result is empty. *)
Theorem C5_aggregate (float_of_str : string -> result float) (conn : Conn)
    (self : DatabasePoller) (diff : dict DiffEntry) :
  plancache_step conn self = Ok diff ->
  let t := trace (poll float_of_str conn self) in
  filter (is_emit_of plancache_changed) t
    = [emit plancache_changed (PlanCache diff)] /\
  filter (is_emit_of cpu_util_changed) t
    = [emit cpu_util_changed (Num (TotalCpuUtilization diff))] /\
  Py.sum (map CpuUtil (values diff)) = Ok (TotalCpuUtilization diff) /\
  (diff = [] -> TotalCpuUtilization diff = PyInt 0).
Proof.
  intros Hstep t. subst t.
  rewrite (poll_plancache_returns float_of_str conn self diff Hstep).
  rewrite !filter_app. unfold trace_to_lookup. cbn [filter is_emit_of].
  destruct (memory_step float_of_str conn) as [mem|x]; cbn [filter is_emit_of];
    (repeat split; auto using sum_CpuUtil; intros ->; reflexivity).
Qed.

Lemma C5_aggregate_witness :
  let t := trace (poll Ex.float_of_digits Ex.conn_up Ex.poller) in
  filter (is_emit_of plancache_changed) t
    = [emit plancache_changed (PlanCache Ex.diff_plancache)] /\
  filter (is_emit_of cpu_util_changed) t
    = [emit cpu_util_changed
         (Num (PyFloat (S754_finite false 4503599627370496 (-53))))].
Proof.
  destruct (C5_aggregate Ex.float_of_digits Ex.conn_up Ex.poller
              Ex.diff_plancache) as (H1 & H2 & _).
  - vm_compute; reflexivity.
  - split; [exact H1 | exact H2].
Defined.

(** C6 (no floor on the other counters). For a plan identity known in both
    snapshots with a positive commit delta, the entry is in the result and
    its record is built from the plain differences new minus old of every
    counter. A negative difference is neither clamped nor dropped: the
    per-query average it enters has the minus sign, and so has the rate it
    enters when the interval is positive and finite. The engine does return
    a result when the counters are of realistic size and the interval is a
    non-zero float. *)
Theorem C6_no_floor (new old : dict PlanRow) (interval : number)
    (k : string) (n_ent o_ent : PlanRow) :
  dict_wf new = true ->
  dict_get k new = Some n_ent ->
  dict_get k old = Some o_ent ->
  0 < commits n_ent - commits o_ent ->
  (forall diff, DiffPlanCache new old interval = Ok diff ->
   exists r iv dc dr du de dm dq,
     dict_get k diff = Some r /\
     as_float interval = Ok iv /\
     float_of_int (commits n_ent - commits o_ent) = Ok dc /\
     float_of_int (rowcount n_ent - rowcount o_ent) = Ok dr /\
     float_of_int (cpu_time n_ent - cpu_time o_ent) = Ok du /\
     float_of_int (execution_time n_ent - execution_time o_ent) = Ok de /\
     float_of_int (memory_use n_ent - memory_use o_ent) = Ok dm /\
     float_of_int (queued_time n_ent - queued_time o_ent) = Ok dq /\
     r = {| Database := database_name n_ent;
            Query := query_text n_ent;
            Executions_sec := fdiv dc iv;
            RowCount_sec := fdiv dr iv;
            CpuUtil := fdiv (fdiv du f1000) iv;
            ExecutionTime_query := fdiv de dc;
            Memory_query := fdiv dm dc;
            QueuedTime_query := fdiv dq dc |} /\
     (execution_time n_ent - execution_time o_ent < 0 ->
      minus_sign (ExecutionTime_query r) = true) /\
     (memory_use n_ent - memory_use o_ent < 0 ->
      minus_sign (Memory_query r) = true) /\
     (queued_time n_ent - queued_time o_ent < 0 ->
      minus_sign (QueuedTime_query r) = true) /\
     (finite_positive interval = true ->
      rowcount n_ent - rowcount o_ent < 0 ->
      minus_sign (RowCount_sec r) = true) /\
     (finite_positive interval = true ->
      cpu_time n_ent - cpu_time o_ent < 0 ->
      minus_sign (CpuUtil r) = true)) /\
  (snapshot_bounded new = true -> snapshot_bounded old = true ->
   interval_usable interval = true ->
   exists diff, DiffPlanCache new old interval = Ok diff).
Proof.
  intros Hwf Hn Ho Hd. split; [|apply DiffPlanCache_returns].
  intros diff Hdiff.
  assert (Hraw : forall counter,
             delta old counter k n_ent = counter n_ent - counter o_ent)
    by (intros counter; unfold delta; now rewrite Ho).
  destruct (DiffPlanCache_keep new old interval diff Hwf Hdiff k n_ent Hn)
    as (r & Hnorm & Hg); [rewrite Hraw; exact Hd|].
  unfold normalized in Hnorm. rewrite !Hraw in Hnorm.
  apply Normalize_inv in Hnorm
    as (iv & fc & fr & fu & fe & fm & fq &
        Hiv & _ & Hc & _ & Hr & Hu & He & Hm & Hq & ->).
  eexists; exists iv, fc, fr, fu, fe, fm, fq.
  repeat (split; [first [eassumption | reflexivity]|]).
  cbn [ExecutionTime_query Memory_query QueuedTime_query RowCount_sec CpuUtil].
  repeat split; intros.
  - eapply fdiv_negative_by_positive; eauto.
  - eapply fdiv_negative_by_positive; eauto.
  - eapply fdiv_negative_by_positive; eauto.
  - eapply fdiv_negative_by_interval; eauto.
  - eapply fdiv_1000_negative_by_interval; eauto.
Qed.

Lemma C6_no_floor_witness :
  (exists r,
     dict_get "G" Ex.diff_G = Some r /\
     minus_sign (RowCount_sec r) = true /\
     minus_sign (CpuUtil r) = true /\
     minus_sign (ExecutionTime_query r) = true /\
     minus_sign (Memory_query r) = true /\
     minus_sign (QueuedTime_query r) = true) /\
  (exists diff,
     DiffPlanCache [("G", Ex.new_G)] [("G", Ex.old_G)] (PyInt 5) = Ok diff).
Proof.
  destruct (C6_no_floor [("G", Ex.new_G)] [("G", Ex.old_G)] (PyInt 5) "G"
              Ex.new_G Ex.old_G eq_refl eq_refl eq_refl eq_refl) as [H T].
  split.
  - destruct (H Ex.diff_G eq_refl)
      as (r & iv & dc & dr & du & de & dm & dq & Hg & _ & _ & _ & _ & _ & _
          & _ & _ & Se & Sm & Sq & Sr & Su).
    exists r. split; [exact Hg|].
    split; [apply Sr; reflexivity|].
    split; [apply Su; reflexivity|].
    split; [apply Se; reflexivity|].
    split; [apply Sm; reflexivity | apply Sq; reflexivity].
  - apply T; vm_compute; reflexivity.
Defined.

(** C7 (fetch failure). When the plan-cache query raises, the cycle ends
    with that exception, the poller object (and with it the retained
    snapshot) is unchanged, and no signal is emitted. *)
Theorem C7_fetch_failure (float_of_str : string -> result float)
    (conn : Conn) (self : DatabasePoller) (x : exn) :
  conn_query conn GET_PLANCACHE_QUERY = Raise x ->
  outcome (poll float_of_str conn self) = Raise x /\
  final (poll float_of_str conn self) = self /\
  filter is_emit (trace (poll float_of_str conn self)) = [].
Proof.
  intros Hq.
  rewrite (poll_plancache_raises float_of_str conn self x)
    by (unfold plancache_step; now rewrite Hq).
  repeat split.
Qed.

Lemma C7_fetch_failure_witness :
  outcome (poll Ex.float_of_digits Ex.conn_query_down Ex.poller)
    = Raise QueryError /\
  final (poll Ex.float_of_digits Ex.conn_query_down Ex.poller) = Ex.poller /\
  filter is_emit (trace (poll Ex.float_of_digits Ex.conn_query_down Ex.poller))
    = [].
Proof.
  apply (C7_fetch_failure Ex.float_of_digits Ex.conn_query_down Ex.poller
           QueryError).
  reflexivity.
Defined.

(** C8, as stated, fails: with the plan-cache query down and a status row
    that parses to 2048.0, the cycle emits no [mem_usage_changed]. *)
Lemma C8_steps_independent_counterexample :
  ~ steps_independent Ex.float_of_digits Ex.conn_query_down Ex.poller.
Proof.
  intros [_ H].
  specialize (H QueryError (S754_finite false 4503599627370496 (-41))
                eq_refl eq_refl).
  vm_compute in H. destruct H as [H|[H|[]]]; discriminate.
Qed.

(** C8 (amended). A failure of the memory step does not prevent the
    plan-cache signals: when the plan-cache step succeeds,
    [plancache_changed] and [cpu_util_changed] are emitted whatever the
    memory step does. A failure of the plan-cache step ends the cycle with
    its exception: no signal is emitted, [mem_usage_changed] included, and
    the memory status is not even requested. *)
Theorem C8_plancache_first (float_of_str : string -> result float)
    (conn : Conn) (self : DatabasePoller) :
  let t := trace (poll float_of_str conn self) in
  (forall x diff,
     memory_step float_of_str conn = Raise x ->
     plancache_step conn self = Ok diff ->
     In (emit plancache_changed (PlanCache diff)) t /\
     In (emit cpu_util_changed (Num (TotalCpuUtilization diff))) t) /\
  (forall x,
     plancache_step conn self = Raise x ->
     outcome (poll float_of_str conn self) = Raise x /\
     filter is_emit t = [] /\
     ~ In (get TOTAL_SERVER_MEMORY_QUERY) t).
Proof.
  intros t. subst t. split.
  - intros x diff _ Hstep.
    rewrite (poll_plancache_returns float_of_str conn self diff Hstep).
    split; apply in_or_app; left; unfold trace_to_lookup; cbn [In]; auto.
  - intros x Hstep.
    rewrite (poll_plancache_raises float_of_str conn self x Hstep).
    repeat split. cbn [trace snd In]. intros [H|[H|[]]]; discriminate.
Qed.

Lemma C8_plancache_first_witness :
  (In (emit plancache_changed (PlanCache Ex.diff_plancache))
      (trace (poll Ex.float_of_digits Ex.conn_status_bad Ex.poller)) /\
   In (emit cpu_util_changed (Num (TotalCpuUtilization Ex.diff_plancache)))
      (trace (poll Ex.float_of_digits Ex.conn_status_bad Ex.poller))) /\
  (outcome (poll Ex.float_of_digits Ex.conn_query_down Ex.poller)
     = Raise QueryError /\
   filter is_emit
     (trace (poll Ex.float_of_digits Ex.conn_query_down Ex.poller)) = [] /\
   ~ In (get TOTAL_SERVER_MEMORY_QUERY)
       (trace (poll Ex.float_of_digits Ex.conn_query_down Ex.poller))).
Proof.
  split.
  - apply (proj1 (C8_plancache_first Ex.float_of_digits Ex.conn_status_bad
                    Ex.poller) ValueError Ex.diff_plancache);
      vm_compute; reflexivity.
  - apply (proj2 (C8_plancache_first Ex.float_of_digits Ex.conn_query_down
                    Ex.poller) QueryError).
    reflexivity.
Defined.

(** C9, as stated, fails: in a cycle that succeeds, the fetch and the three
    emissions all follow the call of [set_alarm_in]. *)
Lemma C9_scheduled_after_work_counterexample :
  ~ scheduled_after_work
      (trace (poll Ex.float_of_digits Ex.conn_up Ex.poller)).
Proof.
  intros H.
  specialize (H [] (PyInt 5)
                (tl (trace (poll Ex.float_of_digits Ex.conn_up Ex.poller)))).
  assert (E : existsb is_work
                (tl (trace (poll Ex.float_of_digits Ex.conn_up Ex.poller)))
              = false)
    by (apply H; vm_compute; reflexivity).
  vm_compute in E. discriminate.
Qed.

(** C9 (amended). In every cycle, failing or not, the next tick is
    scheduled first: the trace starts with [set_alarm_in] on the update
    interval, and everything else the cycle does (the fetch, the emissions,
    the memory lookup) comes after it, with no second scheduling. *)
Theorem C9_scheduled_first (float_of_str : string -> result float)
    (conn : Conn) (self : DatabasePoller) :
  exists rest,
    trace (poll float_of_str conn self)
      = set_alarm_in (update_interval self) :: rest /\
    forallb is_work rest = true.
Proof.
  rewrite poll_run.
  destruct (conn_query conn GET_PLANCACHE_QUERY) as [rows|x];
    [|eexists; split; reflexivity].
  cbn zeta.
  destruct (DiffPlanCache _ _ _) as [diff|x]; [|eexists; split; reflexivity].
  destruct (memory_step float_of_str conn) as [mem|x];
    eexists; split; reflexivity.
Qed.

(** C10 (self diff). Diffing a snapshot against itself returns the empty
    result, for every interval: every key is known in the old snapshot
    with a commit delta of zero. *)
Theorem C10_self_diff (s : dict PlanRow) (interval : number) :
  dict_wf s = true ->
  DiffPlanCache s s interval = Ok [].
Proof.
  intros Hwf. unfold DiffPlanCache, items.
  apply DiffPlanCache_self_loop; [exact Hwf | apply incl_refl].
Qed.

Lemma C10_self_diff_witness :
  DiffPlanCache Ex.new_plancache Ex.new_plancache (PyInt 5) = Ok [].
Proof.
  apply (C10_self_diff Ex.new_plancache (PyInt 5)). reflexivity.
Defined.

(** * The scenarios of the specification *)

(** Scenario 1: commits 10 to 15 and rows 100 to 150 in 5 seconds give 1.0
    executions and 10.0 rows per second. *)
Example scenario_advanced :
  DiffPlanCache [("A", Ex.row "A" 15 150 9000 200 500 128)]
                [("A", Ex.row "A" 10 100 4000 900 0 64)] (PyInt 5)
  = Ok [("A", Ex.entry_A)].
Proof. vm_compute. reflexivity. Qed.

(** Scenario 2: a new plan without commits is left out. *)
Example scenario_new_without_commits :
  DiffPlanCache [("B", Ex.row "B" 0 0 0 0 0 0)] [] (PyInt 5) = Ok [].
Proof. reflexivity. Qed.

(** Scenario 3: a reset plan (commits 20 to 5) is left out. *)
Example scenario_reset :
  DiffPlanCache [("C", Ex.row "C" 5 0 0 0 0 0)]
                [("C", Ex.row "C" 20 0 0 0 0 0)] (PyInt 5) = Ok [].
Proof. reflexivity. Qed.

(** Scenario 4: an evicted plan gives no entry and no exception. *)
Example scenario_evicted :
  DiffPlanCache [] [("D", Ex.row "D" 10 0 0 0 0 0)] (PyInt 5) = Ok [].
Proof. reflexivity. Qed.

(** Scenario 5: the status value "2048 MB" is sampled as 2048.0. *)
Example scenario_memory :
  memory_step Ex.float_of_digits Ex.conn_up
  = Ok (S754_finite false 4503599627370496 (-41)).
Proof. vm_compute. reflexivity. Qed.

(** A zero interval is what raises [ZeroDivisionError]. *)
Example zero_interval_raises :
  DiffPlanCache Ex.new_plancache Ex.old_plancache (PyInt 0)
  = Raise ZeroDivisionError.
Proof. vm_compute. reflexivity. Qed.

(** * Further properties of the code *)

(** ** The snapshot fetcher *)

(** What the fetched dictionary holds at a key: the last row of the answer
    that the fetcher keeps under it. *)
Lemma plancache_of_rows_get (rows : list PlanRow) (k : string) :
  dict_get k (plancache_of_rows rows) = find (kept_as k) (rev rows).
Proof.
  unfold plancache_of_rows.
  induction rows as [|r rows IH] using rev_ind; [reflexivity|].
  rewrite fold_left_app, rev_app_distr. cbn [fold_left rev app find].
  unfold kept_as at 1.
  destruct (String.eqb (query_text r) GET_PLANCACHE_QUERY).
  - rewrite andb_false_r. exact IH.
  - rewrite andb_true_r. destruct (String.eqb (plan_hash r) k) eqn:E.
    + apply String.eqb_eq in E. subst k. apply dict_get_set_same.
    + rewrite dict_get_set_other; [exact IH|].
      apply String.eqb_neq in E. congruence.
Qed.

(** X1. Every entry of the fetched snapshot is a row of the answer of the
    database, stored under its own plan hash, and is never the monitoring
    query itself. *)
Theorem X1_fetched_entries (rows : list PlanRow) (k : string) (r : PlanRow) :
  dict_get k (plancache_of_rows rows) = Some r ->
  In r rows /\ plan_hash r = k /\ query_text r <> GET_PLANCACHE_QUERY.
Proof.
  rewrite plancache_of_rows_get. intros H.
  apply find_some in H as [Hin Hk]. unfold kept_as in Hk.
  apply andb_prop in Hk as [Hh Hq].
  split; [now apply in_rev|]. split; [now apply String.eqb_eq|].
  apply negb_true_iff in Hq. now apply String.eqb_neq.
Qed.

Lemma X1_fetched_entries_witness :
  In (Ex.row "A" 15 150 9000 200 500 128) Ex.answer /\
  plan_hash (Ex.row "A" 15 150 9000 200 500 128) = "A" /\
  query_text (Ex.row "A" 15 150 9000 200 500 128) <> GET_PLANCACHE_QUERY.
Proof.
  apply (X1_fetched_entries Ex.answer "A"). vm_compute. reflexivity.
Defined.

(** X2. When the answer reports a plan hash more than once, the last of its
    rows wins; a key is in the fetched snapshot exactly when some row of the
    answer carries it and is not the monitoring query. *)
Theorem X2_last_row_wins (rows : list PlanRow) (k : string) :
  dict_get k (plancache_of_rows rows) = find (kept_as k) (rev rows) /\
  (dict_mem k (plancache_of_rows rows) = true <->
   exists r, In r rows /\ kept_as k r = true).
Proof.
  split; [apply plancache_of_rows_get|].
  unfold dict_mem. rewrite plancache_of_rows_get. split.
  - destruct (find (kept_as k) (rev rows)) as [r|] eqn:F; [|discriminate].
    intros _. apply find_some in F as [Hin Hk].
    exists r. split; [now apply in_rev | exact Hk].
  - intros (r & Hin & Hk).
    destruct (find (kept_as k) (rev rows)) as [r'|] eqn:F; [reflexivity|].
    apply in_rev in Hin.
    rewrite (find_none _ _ F r Hin) in Hk. discriminate.
Qed.

Lemma X2_last_row_wins_witness :
  dict_get "A" (plancache_of_rows Ex.answer)
    = Some (Ex.row "A" 15 150 9000 200 500 128) /\
  dict_mem "B" (plancache_of_rows Ex.answer) = true.
Proof.
  split.
  - rewrite (proj1 (X2_last_row_wins Ex.answer "A")). reflexivity.
  - apply (proj2 (X2_last_row_wins Ex.answer "B")).
    exists (Ex.row "B" 7 70 10 10 10 10). split; [|reflexivity].
    cbn. auto.
Defined.

(** X3. The fetched snapshot holds every key once, whatever the answer. *)
Theorem X3_fetched_keys_unique (rows : list PlanRow) :
  dict_wf (plancache_of_rows rows) = true /\
  NoDup (map fst (plancache_of_rows rows)).
Proof.
  split; [apply plancache_of_rows_wf|].
  generalize (plancache_of_rows_wf rows).
  generalize (plancache_of_rows rows) as d.
  induction d as [|[k v] d IH]; cbn [dict_wf map fst]; intros Hwf.
  - constructor.
  - apply andb_prop in Hwf as [Hk Hwf]. constructor; [|now apply IH].
    intros Hin. apply in_map_iff in Hin as ([k' v'] & Hk' & Hin).
    cbn in Hk'. subst k'. unfold dict_mem in Hk.
    now rewrite (dict_get_In k v' d Hwf Hin) in Hk.
Qed.

(** ** The diff engine: keys, order, dependence on the old snapshot *)

Lemma dict_set_fresh {V} (k : string) (v : V) (d : dict V) :
  dict_get k d = None -> dict_set k v d = (d ++ [(k, v)])%list.
Proof.
  induction d as [|[k' v'] d IH]; cbn [dict_get dict_set app]; [reflexivity|].
  destruct (String.eqb k k'); [discriminate|].
  intros H. now rewrite IH.
Qed.

Lemma DiffPlanCache_loop_wf (old : dict PlanRow) (interval : number) :
  forall (l : dict PlanRow) (acc diff : dict DiffEntry),
    dict_wf acc = true ->
    foldM (DiffPlanCache_body old interval) l acc = Ok diff ->
    dict_wf diff = true.
Proof.
  induction l as [|[k n] l IH]; intros acc diff Hacc H; cbn [foldM] in H.
  - now inversion H; subst.
  - rewrite DiffPlanCache_body_delta in H.
    destruct (0 <? delta old commits k n).
    + destruct (normalized old interval k n) as [e|x]; cbn [rbind] in H;
        [|discriminate].
      apply (IH _ _ (dict_wf_set k e acc Hacc) H).
    + apply (IH _ _ Hacc H).
Qed.

Lemma DiffPlanCache_loop_keys (old : dict PlanRow) (interval : number) :
  forall (l : dict PlanRow) (acc diff : dict DiffEntry),
    dict_wf l = true ->
    (forall k n, In (k, n) l -> dict_get k acc = None) ->
    foldM (DiffPlanCache_body old interval) l acc = Ok diff ->
    map fst diff = (map fst acc ++ map fst (filter (included old) l))%list.
Proof.
  induction l as [|[k n] l IH]; intros acc diff Hwf Hfresh H; cbn [foldM] in H.
  - inversion H; subst. cbn. now rewrite app_nil_r.
  - rewrite DiffPlanCache_body_delta in H.
    cbn [dict_wf] in Hwf. apply andb_prop in Hwf as [Hk Hwf].
    cbn [filter]. unfold included at 1. cbn [fst snd].
    destruct (0 <? delta old commits k n).
    + destruct (normalized old interval k n) as [e|x]; cbn [rbind] in H;
        [|discriminate].
      rewrite (IH _ _ Hwf) with (2 := H).
      * rewrite (dict_set_fresh k e acc) by (apply (Hfresh k n); now left).
        rewrite map_app. cbn [map fst]. now rewrite <- app_assoc.
      * intros k' n' Hin.
        rewrite dict_get_set_other; [apply (Hfresh k' n'); now right|].
        intros ->. unfold dict_mem in Hk.
        now rewrite (dict_get_In k n' l Hwf Hin) in Hk.
    + apply (IH _ _ Hwf) with (2 := H).
      intros k' n' Hin. apply (Hfresh k' n'). now right.
Qed.

(** X4. The keys of the result are the keys of the new snapshot whose
    commit delta is positive, in the order of the new snapshot; the result
    holds every key once and is never longer than the new snapshot. *)
Theorem X4_result_keys (new old : dict PlanRow) (interval : number)
    (diff : dict DiffEntry) :
  dict_wf new = true ->
  DiffPlanCache new old interval = Ok diff ->
  map fst diff = map fst (filter (included old) new) /\
  dict_wf diff = true /\
  (List.length diff <= List.length new)%nat.
Proof.
  intros Hwf H.
  assert (K : map fst diff = map fst (filter (included old) new)).
  { apply (DiffPlanCache_loop_keys old interval new [] diff Hwf); auto. }
  split; [exact K|]. split.
  - now apply (DiffPlanCache_loop_wf old interval new [] diff).
  - rewrite <- (length_map fst diff), K, length_map. apply filter_length_le.
Qed.

Lemma X4_result_keys_witness :
  map fst Ex.diff_plancache = ["A"; "E"] /\
  dict_wf Ex.diff_plancache = true /\
  (List.length Ex.diff_plancache <= 5)%nat.
Proof.
  apply (X4_result_keys Ex.new_plancache Ex.old_plancache (PyInt 5)
           Ex.diff_plancache); vm_compute; reflexivity.
Defined.

Lemma foldM_ext {A B} (f g : B -> A -> result B) (l : list A) :
  (forall x, In x l -> forall acc, f acc x = g acc x) ->
  forall acc, foldM f l acc = foldM g l acc.
Proof.
  induction l as [|x l IH]; intros H acc; cbn [foldM]; [reflexivity|].
  rewrite (H x) by now left.
  destruct (g acc x); cbn [rbind]; [|reflexivity].
  apply IH. intros y Hy. apply H. now right.
Qed.

(** X5. The old snapshot matters only at the keys of the new one: two old
    snapshots that agree at every key of the new snapshot give the same
    result, the same exception included. An evicted plan leaves no mark. *)
Theorem X5_old_only_at_new_keys (new old old' : dict PlanRow)
    (interval : number) :
  (forall k n, In (k, n) new -> dict_get k old = dict_get k old') ->
  DiffPlanCache new old interval = DiffPlanCache new old' interval.
Proof.
  intros H. unfold DiffPlanCache, items. apply foldM_ext.
  intros [k n] Hin acc. unfold DiffPlanCache_body.
  now rewrite (H k n Hin).
Qed.

Lemma X5_old_only_at_new_keys_witness :
  DiffPlanCache Ex.new_plancache Ex.old_plancache (PyInt 5)
  = DiffPlanCache Ex.new_plancache Ex.old_without_D (PyInt 5).
Proof.
  apply (X5_old_only_at_new_keys Ex.new_plancache Ex.old_plancache
           Ex.old_without_D (PyInt 5)).
  intros k n H. cbn in H.
  repeat (destruct H as [H|H]; [inversion H; reflexivity|]).
  destruct H.
Defined.

(** X6. Without a positive commit delta anywhere [DiffPlanCache] returns
    the empty result whatever the interval is, zero included: the
    normalisation is never reached. *)
Theorem X6_quiet_interval (new old : dict PlanRow) (interval : number) :
  (forall k n, In (k, n) new -> delta old commits k n <= 0) ->
  DiffPlanCache new old interval = Ok [].
Proof.
  intros H. unfold DiffPlanCache, items.
  generalize (@nil (string * DiffEntry)) as acc.
  induction new as [|[k n] l IH]; intros acc; cbn [foldM]; [reflexivity|].
  rewrite DiffPlanCache_body_delta.
  replace (0 <? delta old commits k n) with false
    by (symmetry; apply Z.ltb_ge; apply H; now left).
  cbn [rbind]. apply IH. intros k' n' Hin. apply H. now right.
Qed.

Lemma X6_quiet_interval_witness :
  DiffPlanCache [("B", Ex.row "B" 7 70 10 10 10 10);
                 ("C", Ex.row "C" 5 50 5 5 5 5)]
                Ex.old_plancache (PyInt 0) = Ok [].
Proof.
  apply (X6_quiet_interval _ Ex.old_plancache (PyInt 0)).
  intros k n H. cbn in H.
  repeat (destruct H as [H|H]; [inversion H; vm_compute; discriminate|]).
  destruct H.
Defined.

(** ** The diff engine: exceptions and values *)

(** The exceptions of the normalisation when the commit count is
    positive. *)
Lemma Normalize_raises (interval : number) (db q : string)
    (c r u e m qd : Z) (x : exn) :
  0 < c ->
  NormalizeDiffPlanCacheEntry interval db q c r u e m qd = Raise x ->
  x = OverflowError \/
  (x = ZeroDivisionError /\ interval_zero interval = true).
Proof.
  intros Hc.
  unfold NormalizeDiffPlanCacheEntry, truediv, CheckHasDataForAllColumns,
    interval_zero.
  change (as_float (PyFloat f1000)) with (Ok f1000).
  change (is_zero f1000) with false.
  cbn [as_float]. split_conversions; intros H; try discriminate;
    inversion H; subst x;
    repeat match goal with
      | H : float_of_int _ = Raise _ |- _ =>
          apply float_of_int_raises in H; subst
      | H : as_float _ = Raise _ |- _ =>
          apply as_float_raises in H; subst
      end; auto;
    match goal with
    | H : float_of_int c = Ok ?f, Z : is_zero ?f = true |- _ =>
        rewrite (float_of_int_nonzero c f) in Z;
        [discriminate | lia | exact H]
    end.
Qed.

(** X7. [DiffPlanCache] raises nothing but [OverflowError] and
    [ZeroDivisionError], and [ZeroDivisionError] only when the interval is
    zero. *)
Theorem X7_exceptions (new old : dict PlanRow) (interval : number)
    (x : exn) :
  DiffPlanCache new old interval = Raise x ->
  x = OverflowError \/
  (x = ZeroDivisionError /\ interval_zero interval = true).
Proof.
  unfold DiffPlanCache, items.
  generalize (@nil (string * DiffEntry)) as acc.
  induction new as [|[k n] l IH]; intros acc; cbn [foldM]; [discriminate|].
  rewrite DiffPlanCache_body_delta.
  destruct (Z.ltb_spec 0 (delta old commits k n)) as [Hd|Hd]; cbn [rbind].
  - destruct (normalized old interval k n) as [e|y] eqn:Hn; cbn [rbind].
    + apply IH.
    + intros H; inversion H; subst y. revert Hn.
      now apply Normalize_raises.
  - apply IH.
Qed.

Lemma X7_exceptions_witness :
  ZeroDivisionError = OverflowError \/
  (ZeroDivisionError = ZeroDivisionError /\
   interval_zero (PyFloat (S754_zero true)) = true).
Proof.
  apply (X7_exceptions Ex.new_plancache Ex.old_plancache
           (PyFloat (S754_zero true)) ZeroDivisionError).
  vm_compute. reflexivity.
Defined.

Lemma normalized_zero_interval (old : dict PlanRow) (interval : number)
    (k : string) (n_ent : PlanRow) :
  snapshot_bounded old = true -> row_bounded n_ent = true ->
  interval_zero interval = true -> 0 < delta old commits k n_ent ->
  normalized old interval k n_ent = Raise ZeroDivisionError.
Proof.
  intros Ho Hn Hi Hd.
  apply row_bounded_fields in Hn as (Hc & _).
  destruct (float_of_int_finite (delta old commits k n_ent)) as [fc Fc].
  { apply delta_bounded; [exact Hc|].
    intros o Hg. unfold snapshot_bounded in Ho.
    rewrite forallb_forall in Ho.
    apply (row_bounded_fields o). apply Ho. eapply dict_get_values, Hg. }
  unfold normalized, NormalizeDiffPlanCacheEntry. rewrite Fc. cbn [rbind].
  unfold truediv. unfold interval_zero in Hi.
  destruct (as_float interval) as [iv|]; [|discriminate].
  cbn [rbind]. now rewrite Hi.
Qed.

(** X8. With an interval that is zero, [DiffPlanCache] raises
    [ZeroDivisionError] as soon as one entry of the new snapshot has a
    positive commit delta (counters of realistic size): it does not return
    infinite or undefined rates. *)
Theorem X8_zero_interval (new old : dict PlanRow) (interval : number)
    (k : string) (n_ent : PlanRow) :
  snapshot_bounded new = true -> snapshot_bounded old = true ->
  interval_zero interval = true ->
  In (k, n_ent) new -> 0 < delta old commits k n_ent ->
  DiffPlanCache new old interval = Raise ZeroDivisionError.
Proof.
  intros Hn Ho Hi. unfold DiffPlanCache, items.
  generalize (@nil (string * DiffEntry)) as acc.
  induction new as [|[k' n'] l IH]; intros acc Hin Hd; [destruct Hin|].
  unfold snapshot_bounded in Hn. cbn [values map forallb snd] in Hn.
  apply andb_prop in Hn as [Hb Hl].
  cbn [foldM]. rewrite DiffPlanCache_body_delta.
  destruct (Z.ltb_spec 0 (delta old commits k' n')) as [Hd'|Hd'].
  - now rewrite (normalized_zero_interval old interval k' n' Ho Hb Hi Hd').
  - cbn [rbind]. apply IH; [exact Hl | | exact Hd].
    destruct Hin as [Heq|Hin]; [|exact Hin].
    inversion Heq; subst. lia.
Qed.

Lemma X8_zero_interval_witness :
  DiffPlanCache Ex.new_plancache Ex.old_plancache (PyInt 0)
  = Raise ZeroDivisionError.
Proof.
  apply (X8_zero_interval Ex.new_plancache Ex.old_plancache (PyInt 0)
           "E" (Ex.row "E" 4 8 1000 12 2000 4096));
    try (vm_compute; reflexivity).
  cbn. auto 10.
Defined.

(** [float(n)] is a zero or a finite number. *)
Lemma float_of_int_shape (n : Z) (f : float) :
  float_of_int n = Ok f ->
  f = pzero \/ exists s m e, f = S754_finite s m e.
Proof.
  intros H. destruct (Z.eq_dec n 0) as [->|Hn].
  - left. rewrite float_of_int_zero in H. now inversion H.
  - right. destruct (float_of_int_sign n f Hn H) as (m & e & ->). eauto.
Qed.

Lemma fdiv_finite_not_nan (sx sy : bool) (mx my : positive) (ex ey : Z) :
  is_nan (fdiv (S754_finite sx mx ex) (S754_finite sy my ey)) = false.
Proof.
  assert (N : fdiv (S754_finite sx mx ex) (S754_finite sy my ey)
              <> S754_nan).
  { unfold fdiv, SFdiv.
    destruct (SFdiv_core_binary prec emax (Zpos mx) ex (Zpos my) ey)
      as [[mz ez] lz] eqn:E.
    apply binary_round_aux_sign.
    unfold SFdiv_core_binary in E.
    match type of E with
    | (let '(q, r) := Z.div_eucl ?a ?b in _) = _ =>
        assert (Hq : 0 <= fst (Z.div_eucl a b));
        [ change (fst (Z.div_eucl a b)) with (a / b);
          apply Z.div_pos; [|lia]
        | destruct (Z.div_eucl a b) as [q r]; inversion E; subst; exact Hq ]
    end.
    destruct (ex - ey - _) as [|s|s]; try lia.
    apply Z.shiftl_nonneg. lia. }
  destruct (fdiv _ _); try reflexivity. congruence.
Qed.

(** A quotient by a finite float is a NaN only if the dividend is. *)
Lemma fdiv_by_finite_not_nan (x : float) (s : bool) (m : positive) (e : Z) :
  is_nan x = false -> is_nan (fdiv x (S754_finite s m e)) = false.
Proof.
  destruct x as [sx|sx| |sx mx ex]; intros H; try reflexivity;
    [discriminate | apply fdiv_finite_not_nan].
Qed.

Lemma float_of_int_not_nan (n : Z) (f : float) :
  float_of_int n = Ok f -> is_nan f = false.
Proof.
  intros H. destruct (float_of_int_shape n f H) as [->|(s & m & e & ->)];
    reflexivity.
Qed.

(** X9. With a positive finite interval no field of any record of the
    result is a NaN, and the executions per second do not carry the minus
    sign. *)
Theorem X9_no_nan (new old : dict PlanRow) (interval : number)
    (diff : dict DiffEntry) (k : string) (r : DiffEntry) :
  dict_wf new = true ->
  finite_positive interval = true ->
  DiffPlanCache new old interval = Ok diff ->
  dict_get k diff = Some r ->
  forallb (fun f => negb (is_nan f)) (metrics r) = true /\
  minus_sign (Executions_sec r) = false.
Proof.
  intros Hwf Hi Hdiff Hr.
  destruct (DiffPlanCache_inv new old interval diff Hwf Hdiff k r Hr)
    as (n_ent & Hn & Hd & Hnorm).
  apply Normalize_inv in Hnorm
    as (iv & fc & fr & fu & fe & fm & fq &
        Hiv & _ & Hc & _ & Hrc & Hu & He & Hm & Hq & ->).
  destruct (finite_positive_as_float interval iv Hi Hiv) as (mi & ei & ->).
  destruct (float_of_int_sign (delta old commits k n_ent) fc)
    as (mc & ec & ->); [lia | exact Hc |].
  replace (delta old commits k n_ent <? 0) with false
    by (symmetry; apply Z.ltb_ge; lia).
  assert (F1000 : exists m1 e1, f1000 = S754_finite false m1 e1)
    by (unfold f1000; eauto).
  destruct F1000 as (m1 & e1 & E1).
  split.
  - cbn [metrics forallb Executions_sec RowCount_sec CpuUtil
         ExecutionTime_query Memory_query QueuedTime_query].
    rewrite E1.
    rewrite !fdiv_by_finite_not_nan;
      eauto using float_of_int_not_nan, fdiv_by_finite_not_nan.
  - cbn [Executions_sec]. now rewrite fdiv_finite_sign.
Qed.

Lemma X9_no_nan_witness :
  forallb (fun f => negb (is_nan f)) (metrics Ex.entry_A) = true /\
  minus_sign (Executions_sec Ex.entry_A) = false.
Proof.
  apply (X9_no_nan Ex.new_plancache Ex.old_plancache (PyInt 5)
           Ex.diff_plancache "A" Ex.entry_A); vm_compute; reflexivity.
Defined.

(** X10. The database name and the query text of a record are those of the
    entry of the new snapshot under the same key, not those of the old
    one. *)
Theorem X10_identity_fields (new old : dict PlanRow) (interval : number)
    (diff : dict DiffEntry) (k : string) (r : DiffEntry) :
  dict_wf new = true ->
  DiffPlanCache new old interval = Ok diff ->
  dict_get k diff = Some r ->
  exists n_ent,
    dict_get k new = Some n_ent /\
    Database r = database_name n_ent /\
    Query r = query_text n_ent.
Proof.
  intros Hwf Hdiff Hr.
  destruct (DiffPlanCache_inv new old interval diff Hwf Hdiff k r Hr)
    as (n_ent & Hn & _ & Hnorm).
  apply Normalize_inv in Hnorm
    as (iv & fc & fr & fu & fe & fm & fq & _ & _ & _ & _ & _ & _ & _ & _ & _ & ->).
  exists n_ent. auto.
Qed.

Lemma X10_identity_fields_witness :
  exists n_ent,
    dict_get "A" Ex.new_plancache = Some n_ent /\
    Database Ex.entry_A = database_name n_ent /\
    Query Ex.entry_A = query_text n_ent.
Proof.
  apply (X10_identity_fields Ex.new_plancache Ex.old_plancache (PyInt 5)
           Ex.diff_plancache "A" Ex.entry_A); vm_compute; reflexivity.
Defined.

(** ** The poll cycle *)

(** X11. A cycle ends with the exception of its first failing step, the
    plan-cache step before the memory step, and returns only when both
    succeed; the sum of the CPU utilisations and the indexing of the split
    status value never fail. *)
Theorem X11_poll_outcome (float_of_str : string -> result float)
    (conn : Conn) (self : DatabasePoller) :
  outcome (poll float_of_str conn self) =
    rbind (plancache_step conn self)
      (fun _ => rbind (memory_step float_of_str conn) (fun _ => Ok tt)).
Proof.
  rewrite poll_run. unfold plancache_step.
  destruct (conn_query conn GET_PLANCACHE_QUERY) as [rows|x]; cbn [rbind];
    [|reflexivity].
  cbn zeta. destruct (DiffPlanCache _ _ _) as [diff|x]; cbn [rbind];
    [|reflexivity].
  destruct (memory_step float_of_str conn); reflexivity.
Qed.

(** X12. The signals of a cycle come in one order: nothing when the
    plan-cache step fails; otherwise [plancache_changed] with the diff
    result, then [cpu_util_changed] with its total, then
    [mem_usage_changed] when the memory step succeeds. No signal is emitted
    twice, and [cpu_util_changed] never comes without [plancache_changed]. *)
Theorem X12_signals_in_order (float_of_str : string -> result float)
    (conn : Conn) (self : DatabasePoller) :
  filter is_emit (trace (poll float_of_str conn self)) =
    match plancache_step conn self with
    | Raise _ => []
    | Ok diff =>
        emit plancache_changed (PlanCache diff)
        :: emit cpu_util_changed (Num (TotalCpuUtilization diff))
        :: match memory_step float_of_str conn with
           | Ok mem => [emit mem_usage_changed (Num (PyFloat mem))]
           | Raise _ => []
           end
    end.
Proof.
  destruct (plancache_step conn self) as [diff|x] eqn:Hstep.
  - rewrite (poll_plancache_returns float_of_str conn self diff Hstep).
    rewrite filter_app. unfold trace_to_lookup. cbn [filter is_emit app].
    now destruct (memory_step float_of_str conn).
  - now rewrite (poll_plancache_raises float_of_str conn self x Hstep).
Qed.

(** The poller object a cycle leaves. *)
Lemma poll_final (float_of_str : string -> result float) (conn : Conn)
    (self : DatabasePoller) :
  final (poll float_of_str conn self) =
    match plancache_step conn self, conn_query conn GET_PLANCACHE_QUERY with
    | Ok _, Ok rows => set_plancache (plancache_of_rows rows) self
    | _, _ => self
    end.
Proof.
  rewrite poll_run. unfold plancache_step.
  destruct (conn_query conn GET_PLANCACHE_QUERY) as [rows|x]; cbn [rbind];
    [|reflexivity].
  cbn zeta. destruct (DiffPlanCache _ _ _) as [diff|x]; [|reflexivity].
  destruct (memory_step float_of_str conn); reflexivity.
Qed.

(** X13. The retained snapshot after a cycle: the fetched snapshot when
    fetch and diff succeeded, also when the memory step failed afterwards;
    the previous snapshot otherwise, also when only the diff failed. The
    update interval is never changed. *)
Theorem X13_retained_snapshot (float_of_str : string -> result float)
    (conn : Conn) (self : DatabasePoller) :
  plancache (final (poll float_of_str conn self)) =
    match conn_query conn GET_PLANCACHE_QUERY with
    | Ok rows =>
        match DiffPlanCache (plancache_of_rows rows) (plancache self)
                (update_interval self) with
        | Ok _ => plancache_of_rows rows
        | Raise _ => plancache self
        end
    | Raise _ => plancache self
    end /\
  update_interval (final (poll float_of_str conn self))
    = update_interval self.
Proof.
  rewrite poll_final. unfold plancache_step.
  destruct (conn_query conn GET_PLANCACHE_QUERY) as [rows|x]; cbn [rbind];
    [|split; reflexivity].
  destruct (DiffPlanCache _ _ _) as [diff|x]; split; reflexivity.
Qed.

(** X14. The retained snapshot holds every key once, always: the
    constructor establishes it and every cycle keeps it, failing or not. *)
Theorem X14_snapshot_invariant (float_of_str : string -> result float)
    (conn : Conn) (interval : number) (self : DatabasePoller) :
  (forall self0, outcome (init conn interval tt) = Ok self0 ->
                 dict_wf (plancache self0) = true) /\
  (dict_wf (plancache self) = true ->
   dict_wf (plancache (final (poll float_of_str conn self))) = true).
Proof.
  split.
  - intros self0. unfold init, GetPlanCache, db_query, bind, tell, lift, ret,
      outcome.
    destruct (conn_query conn GET_PLANCACHE_QUERY) as [rows|x]; cbn;
      [|discriminate].
    intros H; inversion H; subst. apply plancache_of_rows_wf.
  - intros Hwf. rewrite poll_final.
    destruct (plancache_step conn self); [|exact Hwf].
    destruct (conn_query conn GET_PLANCACHE_QUERY) as [rows|x]; [|exact Hwf].
    apply plancache_of_rows_wf.
Qed.

Lemma X14_snapshot_invariant_witness :
  dict_wf
    (plancache {| update_interval := PyInt 5;
                  plancache := plancache_of_rows Ex.rows |}) = true /\
  dict_wf (plancache
             (final (poll Ex.float_of_digits Ex.conn_up Ex.poller))) = true.
Proof.
  split.
  - apply (proj1 (X14_snapshot_invariant Ex.float_of_digits Ex.conn_up
                    (PyInt 5) Ex.poller)).
    reflexivity.
  - apply (proj2 (X14_snapshot_invariant Ex.float_of_digits Ex.conn_up
                    (PyInt 5) Ex.poller)).
    reflexivity.
Defined.

(** X15. A first cycle that fetches the answer the constructor fetched
    reports no activity: it emits the empty diff result and the total [0],
    whatever the interval is. *)
Theorem X15_first_cycle_quiet (float_of_str : string -> result float)
    (conn : Conn) (interval : number) (self0 : DatabasePoller) :
  outcome (init conn interval tt) = Ok self0 ->
  plancache_step conn self0 = Ok [] /\
  exists rest,
    trace (poll float_of_str conn self0) =
      (set_alarm_in interval
       :: query GET_PLANCACHE_QUERY
       :: emit plancache_changed (PlanCache [])
       :: emit cpu_util_changed (Num (PyInt 0))
       :: get TOTAL_SERVER_MEMORY_QUERY
       :: rest).
Proof.
  intros H.
  assert (Hself : exists rows,
             conn_query conn GET_PLANCACHE_QUERY = Ok rows /\
             self0 = {| update_interval := interval;
                        plancache := plancache_of_rows rows |}).
  { unfold init, GetPlanCache, db_query, bind, tell, lift, ret, outcome in H.
    destruct (conn_query conn GET_PLANCACHE_QUERY) as [rows|x]; cbn in H;
      [|discriminate].
    exists rows. split; [reflexivity | now inversion H]. }
  destruct Hself as (rows & Hq & ->). clear H.
  assert (Hstep : plancache_step conn
                    {| update_interval := interval;
                       plancache := plancache_of_rows rows |} = Ok []).
  { unfold plancache_step. rewrite Hq. cbn [rbind plancache update_interval].
    unfold DiffPlanCache, items.
    apply DiffPlanCache_self_loop;
      [apply plancache_of_rows_wf | apply incl_refl]. }
  split; [exact Hstep|].
  rewrite (poll_plancache_returns float_of_str conn _ [] Hstep).
  eexists. reflexivity.
Qed.

Lemma X15_first_cycle_quiet_witness :
  plancache_step Ex.conn_up
    {| update_interval := PyInt 5;
       plancache := plancache_of_rows Ex.rows |} = Ok [].
Proof.
  apply (X15_first_cycle_quiet Ex.float_of_digits Ex.conn_up (PyInt 5)).
  reflexivity.
Defined.

(** X16. Cycles chain on the retained snapshot. After a cycle whose fetch
    and diff succeeded, the next cycle diffs its answer against the answer
    of that cycle, also when the memory step of that cycle failed. After a
    cycle whose plan-cache step failed, the next cycle diffs against the
    snapshot retained before, over the one update interval all the same. *)
Theorem X16_cycles_chain (float_of_str : string -> result float)
    (conn1 conn2 : Conn) (self : DatabasePoller) :
  let self' := final (poll float_of_str conn1 self) in
  (forall rows1 diff1,
     conn_query conn1 GET_PLANCACHE_QUERY = Ok rows1 ->
     plancache_step conn1 self = Ok diff1 ->
     plancache_step conn2 self' =
       rbind (conn_query conn2 GET_PLANCACHE_QUERY)
         (fun rows2 =>
            DiffPlanCache (plancache_of_rows rows2) (plancache_of_rows rows1)
              (update_interval self))) /\
  (forall x,
     plancache_step conn1 self = Raise x ->
     plancache_step conn2 self' = plancache_step conn2 self).
Proof.
  intros self'. subst self'. rewrite poll_final. split.
  - intros rows1 diff1 Hq Hstep. now rewrite Hstep, Hq.
  - intros x Hstep. now rewrite Hstep.
Qed.

Lemma X16_cycles_chain_witness :
  plancache_step Ex.conn_later
    (final (poll Ex.float_of_digits Ex.conn_status_bad Ex.poller))
    = Ok Ex.later_diff /\
  plancache_step Ex.conn_later
    (final (poll Ex.float_of_digits Ex.conn_query_down Ex.poller))
    = Ok Ex.later_diff_from_old.
Proof.
  split.
  - rewrite (proj1 (X16_cycles_chain Ex.float_of_digits Ex.conn_status_bad
                      Ex.conn_later Ex.poller)
               Ex.rows Ex.diff_plancache eq_refl eq_refl).
    vm_compute. reflexivity.
  - rewrite (proj2 (X16_cycles_chain Ex.float_of_digits
                      Ex.conn_query_down Ex.conn_later Ex.poller)
               QueryError eq_refl).
    vm_compute. reflexivity.
Defined.

(** The first element of [s.split(" ")]: there always is one, it holds no
    space, and [s] is that element alone or that element, a space and a
    rest. *)
Lemma split_space_first (s : string) :
  exists token,
    index0 (split_space s) = Ok token /\
    has_space token = false /\
    (s = token \/ exists rest, s = (token ++ String " " rest)%string).
Proof.
  induction s as [|c s IH]; cbn [split_space].
  - exists EmptyString. repeat split. now left.
  - destruct (Ascii.eqb c " ") eqn:E.
    + apply Ascii.eqb_eq in E. subst c.
      exists EmptyString. repeat split. right. now exists s.
    + destruct IH as (t & Ht & Hs & Hr).
      destruct (split_space s) as [|h l]; [discriminate|].
      cbn in Ht. inversion Ht; subst h.
      exists (String c t). cbn [index0 has_space]. rewrite E, Hs.
      repeat split. destruct Hr as [->|[rest ->]]; [now left|].
      right. now exists rest.
Qed.

(** X17. The memory step passes to [float] the part of the status value
    before its first space, so that a unit after the number is ignored; it
    raises what [conn.get] raises, [AttributeError] when no status row is
    found, and otherwise only what [float] raises on that part. *)
Theorem X17_memory_step (float_of_str : string -> result float)
    (conn : Conn) :
  match conn_get conn TOTAL_SERVER_MEMORY_QUERY with
  | Raise x => memory_step float_of_str conn = Raise x
  | Ok None => memory_step float_of_str conn = Raise AttributeError
  | Ok (Some tsm_row) =>
      exists token,
        memory_step float_of_str conn = float_of_str token /\
        has_space token = false /\
        (Value tsm_row = token \/
         exists rest, Value tsm_row = (token ++ String " " rest)%string)
  end.
Proof.
  unfold memory_step.
  destruct (conn_get conn TOTAL_SERVER_MEMORY_QUERY) as [[tsm_row|]|x];
    cbn [rbind attr_Value]; try reflexivity.
  destruct (split_space_first (Value tsm_row)) as (token & Ht & Hs & Hr).
  exists token. rewrite Ht. cbn [rbind]. auto.
Qed.

(** X18. What a cycle asks of the database: always the one plan-cache
    query, with the fixed text, and after it the one status lookup when
    the plan-cache step succeeded; nothing else, and nothing twice. *)
Theorem X18_database_calls (float_of_str : string -> result float)
    (conn : Conn) (self : DatabasePoller) :
  filter is_db_call (trace (poll float_of_str conn self)) =
    query GET_PLANCACHE_QUERY
    :: match plancache_step conn self with
       | Ok _ => [get TOTAL_SERVER_MEMORY_QUERY]
       | Raise _ => []
       end.
Proof.
  destruct (plancache_step conn self) as [diff|x] eqn:Hstep.
  - rewrite (poll_plancache_returns float_of_str conn self diff Hstep).
    rewrite filter_app. unfold trace_to_lookup. cbn [filter is_db_call app].
    now destruct (memory_step float_of_str conn).
  - now rewrite (poll_plancache_raises float_of_str conn self x Hstep).
Qed.
